(** * Villa upsell admin dashboard: client-side logic of the views

    A shallow embedding of the logic of [src/pages/Orders.tsx],
    [src/pages/Analytics.tsx], [src/pages/PropertyForm.tsx],
    [src/pages/UpsellForm.tsx] and of the [AuthProvider] context, with the
    properties of the specification stated and proved over it.

    Conventions of the embedding:
    - a JavaScript [number] that carries money is an IEEE binary64 [float];
      identifiers, array lengths and the small integers of [statusOrder] are
      [Z] or [nat]; a time value ([Date.prototype.getTime]) is [option Z],
      [None] standing for [NaN];
    - a React state cell is a field of a state record, an event handler is a
      function from the state to the new state and the effects it emits
      (requests, cache invalidations, toasts), and the settlement of a
      request is an event of its own;
    - built-ins of the JavaScript runtime whose tables are not part of the
      repository ([String.prototype.toLowerCase], date parsing) are fields
      of the class [JSRuntime]. *)

From Stdlib Require Import ZArith List String Ascii Bool Lia Permutation Sorted Floats.
From stdpp Require Import base gmap strings sorting pretty.
Import ListNotations.
Open Scope Z_scope.

(* ===================================================================== *)
(** * JavaScript built-ins used by the views *)
(* ===================================================================== *)

Module JS.

(** The part of the runtime the views call and the repository does not
    define. *)
Class JSRuntime := {
  toLowerCase : string -> string;
  (** [new Date(s).getTime()]: an integral number of milliseconds, or
      [None] for an invalid date ([NaN]). *)
  Date_getTime : string -> option Z
}.

(** [s.includes(sub)]: [sub] occurs in [s] at some position. *)
Fixpoint includes (s sub : string) : bool :=
  String.prefix sub s ||
  match s with
  | EmptyString => false
  | String _ s' => includes s' sub
  end.

(** [x || d] on numbers that are integers: [0] is the falsy one. *)
Definition or_num (x d : Z) : Z := if x =? 0 then d else x.

(** Truthiness of a string: only the empty string is falsy. *)
Definition truthy (s : string) : bool :=
  match s with EmptyString => false | String _ _ => true end.

(** [parseFloat(x.toString())] for a number [x]: the decimal rendering of
    a number reads back as the same number, except that [-0] prints as
    ["0"]. *)
Definition parseFloat_toString (x : float) : float :=
  if (x =? 0)%float then 0%float else x.

(** What [Array.prototype.sort] looks at in the number [v] its comparator
    returns: [v < 0], [v > 0], or neither (zero and [NaN]). *)
Definition sign_float (v : float) : comparison :=
  if (v <? 0)%float then Lt else if (0 <? v)%float then Gt else Eq.

Definition sign_int (v : Z) : comparison := v ?= 0.

(** Difference of two time values; [NaN] is absorbing. The views hand such
    a difference to [sort] only, which reads its sign: the sign of the exact
    difference, time values being integers that binary64 holds exactly. *)
Definition time_sub (a b : option Z) : option Z :=
  match a, b with
  | Some x, Some y => Some (x - y)
  | _, _ => None
  end.

Definition sign_time (v : option Z) : comparison :=
  match v with
  | Some d => sign_int d
  | None => Eq
  end.

(** [Array.prototype.sort(cmp)]. The sort is stable; with a consistent
    comparator its result is therefore determined, and is the one of this
    insertion sort. (With an inconsistent comparator the order is left to
    the engine; the result is a permutation all the same.) *)
Fixpoint sort_insert {A : Type} (cmp : A -> A -> comparison)
    (x : A) (l : list A) : list A :=
  match l with
  | [] => [x]
  | y :: l' =>
      match cmp x y with
      | Gt => y :: sort_insert cmp x l'
      | _ => x :: l
      end
  end.

Definition sort {A : Type} (cmp : A -> A -> comparison) (l : list A) : list A :=
  fold_right (sort_insert cmp) [] l.

(** [l.slice(-n)]: the last [n] elements, all of them when there are
    fewer. *)
Definition slice_last {A : Type} (n : nat) (l : list A) : list A :=
  skipn (length l - n) l.

(** One step of [Math.max]: [highest] is the running maximum. *)
Definition max_step (highest number : float) : float :=
  if is_nan highest || is_nan number then nan
  else if (highest <? number)%float then number
  else if (highest =? number)%float
          && (match classify highest with NZero => true | _ => false end)
       then number
       else highest.

(** [Math.max(...xs)], [-Infinity] on no argument. *)
Definition Math_max (xs : list float) : float :=
  fold_left max_step xs neg_infinity.

(** [x || d] on numbers: [0], [-0] and [NaN] are the falsy ones. *)
Definition or_float (x d : float) : float :=
  if (x =? 0)%float || is_nan x then d else x.

(** [s || d] on an optional string: [undefined] and the empty string are
    the falsy ones. *)
Definition or_string (s : option string) (d : string) : string :=
  match s with
  | Some v => if truthy v then v else d
  | None => d
  end.

(** [`${n}`] for a number that is an integer or [NaN] ([None]). *)
Definition number_to_string (n : option Z) : string :=
  match n with
  | Some z => pretty z
  | None => "NaN"
  end.

(** [IsWellFormedCurrencyCode] of [Intl.NumberFormat]: three letters of
    the ASCII alphabet; on any other code the constructor throws a
    [RangeError]. *)
Definition is_letter (c : ascii) : bool :=
  let n := nat_of_ascii c in
  ((65 <=? n) && (n <=? 90) || (97 <=? n) && (n <=? 122))%nat.

Definition well_formed_currency (code : string) : bool :=
  match code with
  | String a (String b (String c EmptyString)) =>
      is_letter a && is_letter b && is_letter c
  | _ => false
  end.

End JS.

Export JS.

(** The outcome of a request, as the promise of [api.get]/[api.post]/
    [api.put] settles. *)
Inductive ApiResult (A : Type) : Type :=
| Resolved (response : A)
| Rejected (message : option string).
Arguments Resolved {A} response.
Arguments Rejected {A} message.

(* ===================================================================== *)
(** * Records mirrored from the backend ([types]) *)
(* ===================================================================== *)

Inductive OrderStatus := pending | confirmed | fulfilled | cancelled.

Definition OrderStatus_eqb (a b : OrderStatus) : bool :=
  match a, b with
  | pending, pending | confirmed, confirmed
  | fulfilled, fulfilled | cancelled, cancelled => true
  | _, _ => false
  end.

(** The string a status is on the wire and in the handlers' arguments. *)
Definition status_name (s : OrderStatus) : string :=
  match s with
  | pending => "pending"
  | confirmed => "confirmed"
  | fulfilled => "fulfilled"
  | cancelled => "cancelled"
  end.

(** Only the fields the views read are kept of the related records. *)
Module Property.
Record t := mk { id : Z; name : string }.
End Property.

Module Vendor.
Record t := mk { id : Z; name : string; service_type : string }.
End Vendor.

Module Upsell.
Record t := mk { id : Z; title : string }.
End Upsell.

Module Order.
Record t := mk {
  id : Z;
  guest_name : string;
  guest_email : string;
  amount : float;
  currency : string;
  status : OrderStatus;
  created_at : string;
  property : option Property.t;
  upsell : option Upsell.t;
  vendor : option Vendor.t
}.
End Order.


(* ===================================================================== *)
(** * The Orders view ([src/pages/Orders.tsx]) *)
(* ===================================================================== *)

Module Stats.
Record t := mk {
  total : nat;
  revenue : float;
  pending : nat;
  confirmed : nat;
  fulfilled : nat;
  cancelled : nat
}.
End Stats.

Module Orders.

Inductive ViewMode := card | table.
Inductive SortBy := date | amount | status.
Inductive SortOrder := asc | desc.

(** The state cells of the component ([useState]) and the data of its
    query ([useQuery]): [orders] is [None] until the first fetch
    resolves. *)
Record State := mkState {
  searchTerm : string;
  statusFilter : string;
  dateFilter : string;
  vendorFilter : string;
  showActionsMenu : option Z;
  selectedOrders : list Z;
  viewMode : ViewMode;
  sortBy : SortBy;
  sortOrder : SortOrder;
  showFilters : bool;
  orders : option (list Order.t);
  isLoading : bool
}.

Definition set_searchTerm (v : string) (st : State) : State :=
  mkState v (statusFilter st) (dateFilter st) (vendorFilter st)
    (showActionsMenu st) (selectedOrders st) (viewMode st) (sortBy st)
    (sortOrder st) (showFilters st) (orders st) (isLoading st).

Definition set_showActionsMenu (v : option Z) (st : State) : State :=
  mkState (searchTerm st) (statusFilter st) (dateFilter st) (vendorFilter st)
    v (selectedOrders st) (viewMode st) (sortBy st)
    (sortOrder st) (showFilters st) (orders st) (isLoading st).

Definition set_selectedOrders (v : list Z) (st : State) : State :=
  mkState (searchTerm st) (statusFilter st) (dateFilter st) (vendorFilter st)
    (showActionsMenu st) v (viewMode st) (sortBy st)
    (sortOrder st) (showFilters st) (orders st) (isLoading st).

Definition set_viewMode (v : ViewMode) (st : State) : State :=
  mkState (searchTerm st) (statusFilter st) (dateFilter st) (vendorFilter st)
    (showActionsMenu st) (selectedOrders st) v (sortBy st)
    (sortOrder st) (showFilters st) (orders st) (isLoading st).

Definition set_sortBy (v : SortBy) (st : State) : State :=
  mkState (searchTerm st) (statusFilter st) (dateFilter st) (vendorFilter st)
    (showActionsMenu st) (selectedOrders st) (viewMode st) v
    (sortOrder st) (showFilters st) (orders st) (isLoading st).

Definition set_sortOrder (v : SortOrder) (st : State) : State :=
  mkState (searchTerm st) (statusFilter st) (dateFilter st) (vendorFilter st)
    (showActionsMenu st) (selectedOrders st) (viewMode st) (sortBy st)
    v (showFilters st) (orders st) (isLoading st).

(** What a handler does to the outside world. *)
Inductive Effect :=
| api_put_order_status (id : Z) (status : string)
    (** [api.put(`/orders/${id}/status`, { status })] *)
| api_put_bulk_update (ids : list Z) (status : string)
    (** [api.put('/orders/bulk-update', { ids, status })] *)
| invalidateQueries (key : string)
| toast_success (msg : string)
| toast_error (msg : string).

(** What can happen to the component: a control is used, or a request
    issued earlier settles. *)
Inductive Event :=
| SearchTyped (v : string)
| ViewModeClicked (v : ViewMode)
| SortByChosen (v : SortBy)
| SortOrderClicked
| MenuToggled (orderId : Z)
| MenuActionClicked (id : Z) (status : string)
| SelectOrderClicked (orderId : Z)
| SelectAllClicked
| BulkActionClicked (status : string)
| UpdateStatusSettled (r : ApiResult unit)
| BulkUpdateSettled (sent : list Z) (r : ApiResult unit)
    (** the bulk update that was sent with the ids [sent] settles *).

Record Button := mkButton { label : string; onClick : Event }.

(** What a render comes to: the skeleton, a page, or the [RangeError] that
    a formatter of [Intl] throws, which leaves nothing of the component on
    the screen. *)
Inductive Rendering (A : Type) : Type :=
| Skeleton
| Rendered (a : A)
| RangeError.
Arguments Skeleton {A}.
Arguments Rendered {A} a.
Arguments RangeError {A}.

Definition Rendering_map {A B : Type} (f : A -> B) (r : Rendering A) : Rendering B :=
  match r with
  | Skeleton => Skeleton
  | Rendered a => Rendered (f a)
  | RangeError => RangeError
  end.

Section View.
Context `{JSRuntime}.

(** [o?.f.toLowerCase().includes(q)]: [undefined], hence falsy, when the
    relation [o] is absent. *)
Definition chain {A : Type} (o : option A) (f : A -> bool) : bool :=
  match o with
  | Some a => f a
  | None => false
  end.

(** The predicate of [orders.filter] (lines 91-100). *)
Definition matchesSearch (searchTerm : string) (order : Order.t) : bool :=
  includes (toLowerCase (Order.guest_name order)) (toLowerCase searchTerm)
  || includes (toLowerCase (Order.guest_email order)) (toLowerCase searchTerm)
  || chain (Order.upsell order)
       (fun u => includes (toLowerCase (Upsell.title u)) (toLowerCase searchTerm))
  || chain (Order.property order)
       (fun p => includes (toLowerCase (Property.name p)) (toLowerCase searchTerm))
  || chain (Order.vendor order)
       (fun v => includes (toLowerCase (Vendor.name v)) (toLowerCase searchTerm)).

Definition statusOrder (s : OrderStatus) : Z :=
  match s with
  | pending => 1
  | confirmed => 2
  | fulfilled => 3
  | cancelled => 4
  end.

(** The comparator of [filtered.sort] (lines 103-125), up to what the sort
    reads of its result. *)
Definition compareOrders (sortBy : SortBy) (sortOrder : SortOrder)
    (a b : Order.t) : comparison :=
  match sortBy with
  | date =>
      let aValue := Date_getTime (Order.created_at a) in
      let bValue := Date_getTime (Order.created_at b) in
      sign_time (match sortOrder with
                 | asc => time_sub aValue bValue
                 | desc => time_sub bValue aValue
                 end)
  | amount =>
      let aValue := parseFloat_toString (Order.amount a) in
      let bValue := parseFloat_toString (Order.amount b) in
      sign_float (match sortOrder with
                  | asc => aValue - bValue
                  | desc => bValue - aValue
                  end)%float
  | status =>
      let aValue := or_num (statusOrder (Order.status a)) 0 in
      let bValue := or_num (statusOrder (Order.status b)) 0 in
      sign_int (match sortOrder with
                | asc => aValue - bValue
                | desc => bValue - aValue
                end)
  end.

(** [filteredAndSortedOrders] (lines 88-128). *)
Definition filteredAndSortedOrders (orders : option (list Order.t))
    (searchTerm : string) (sortBy : SortBy) (sortOrder : SortOrder)
    : list Order.t :=
  match orders with
  | None => []
  | Some orders =>
      let filtered := List.filter (matchesSearch searchTerm) orders in
      JS.sort (compareOrders sortBy sortOrder) filtered
  end.

Definition displayed (st : State) : list Order.t :=
  filteredAndSortedOrders (orders st) (searchTerm st) (sortBy st) (sortOrder st).

Definition countStatus (s : OrderStatus) (orders : list Order.t) : nat :=
  length (List.filter (fun o => OrderStatus_eqb (Order.status o) s) orders).

(** [stats] (lines 131-142). *)
Definition stats (orders : option (list Order.t)) : Stats.t :=
  match orders with
  | None => Stats.mk 0 0%float 0 0 0 0
  | Some orders =>
      let total := length orders in
      let revenue :=
        fold_left (fun sum order =>
                     (sum + parseFloat_toString (Order.amount order))%float)
                  orders 0%float in
      Stats.mk total revenue
        (countStatus pending orders) (countStatus confirmed orders)
        (countStatus fulfilled orders) (countStatus cancelled orders)
  end.

Definition array_includes (l : list Z) (x : Z) : bool := existsb (Z.eqb x) l.

(** [handleSelectOrder] (lines 174-180). *)
Definition handleSelectOrder (orderId : Z) (st : State) : State :=
  let prev := selectedOrders st in
  set_selectedOrders
    (if array_includes prev orderId
     then List.filter (fun id => negb (id =? orderId)) prev
     else prev ++ [orderId])
    st.

(** [handleSelectAll] (lines 182-188). *)
Definition handleSelectAll (st : State) : State :=
  if (length (selectedOrders st) =? length (displayed st))%nat
  then set_selectedOrders [] st
  else set_selectedOrders (map Order.id (displayed st)) st.

(** [handleBulkAction] (lines 190-193); the request is the one of
    [bulkUpdateMutation] (lines 72-73). *)
Definition handleBulkAction (status : string) (st : State)
    : State * list Effect :=
  if (length (selectedOrders st) =? 0)%nat then (st, [])
  else (st, [api_put_bulk_update (selectedOrders st) status]).

(** [bulkUpdateMutation], [onSuccess] and [onError] (lines 75-82). The
    callbacks that run are the ones of the render in which [mutate] was
    called: the [selectedOrders] that [onSuccess] counts is the selection of
    that moment, that is, the ids [sent]. *)
Definition bulkUpdate_onSuccess (sent : list Z) (st : State)
    : State * list Effect :=
  (set_selectedOrders [] st,
   [invalidateQueries "orders";
    toast_success (pretty (length sent) +:+ " orders updated")]).

Definition bulkUpdate_onError (st : State) : State * list Effect :=
  (st, [toast_error "Failed to update orders"]).

(** [updateStatusMutation] (lines 56-69). *)
Definition updateStatus_mutate (id : Z) (status : string) (st : State)
    : State * list Effect :=
  (st, [api_put_order_status id status]).

Definition updateStatus_onSuccess (st : State) : State * list Effect :=
  (set_showActionsMenu None st,
   [invalidateQueries "orders"; toast_success "Order status updated"]).

Definition updateStatus_onError (st : State) : State * list Effect :=
  (st, [toast_error "Failed to update order status"]).

(** The component as a transition system. *)
Definition step (st : State) (ev : Event) : State * list Effect :=
  match ev with
  | SearchTyped v => (set_searchTerm v st, [])
  | ViewModeClicked v => (set_viewMode v st, [])
  | SortByChosen v => (set_sortBy v st, [])
  | SortOrderClicked =>
      (set_sortOrder (match sortOrder st with asc => desc | desc => asc end) st, [])
  | MenuToggled orderId =>
      (set_showActionsMenu
         (match showActionsMenu st with
          | Some open => if open =? orderId then None else Some orderId
          | None => Some orderId
          end) st, [])
  | MenuActionClicked id target => updateStatus_mutate id target st
  | SelectOrderClicked orderId => (handleSelectOrder orderId st, [])
  | SelectAllClicked => (handleSelectAll st, [])
  | BulkActionClicked target => handleBulkAction target st
  | UpdateStatusSettled (Resolved _) => updateStatus_onSuccess st
  | UpdateStatusSettled (Rejected _) => updateStatus_onError st
  | BulkUpdateSettled sent (Resolved _) => bulkUpdate_onSuccess sent st
  | BulkUpdateSettled _ (Rejected _) => bulkUpdate_onError st
  end.

(** The buttons of the per-order actions menu (card view, lines 515-550;
    the table view repeats them, lines 678-713). *)
Definition actionsMenu (order : Order.t) : list Button :=
  (if OrderStatus_eqb (Order.status order) pending
   then [mkButton "Confirm Order" (MenuActionClicked (Order.id order) "confirmed")]
   else [])
  ++ (if OrderStatus_eqb (Order.status order) confirmed
      then [mkButton "Mark Fulfilled" (MenuActionClicked (Order.id order) "fulfilled")]
      else [])
  ++ (if OrderStatus_eqb (Order.status order) pending
         || OrderStatus_eqb (Order.status order) confirmed
      then [mkButton "Cancel Order" (MenuActionClicked (Order.id order) "cancelled")]
      else []).

(** The bulk actions bar (lines 412-443), rendered in both view modes. *)
Definition bulkActionsBar (st : State) : list Button :=
  if (0 <? length (selectedOrders st))%nat
  then [mkButton "Confirm" (BulkActionClicked "confirmed");
        mkButton "Fulfill" (BulkActionClicked "fulfilled");
        mkButton "Cancel" (BulkActionClicked "cancelled")]
  else [].

(** One card, or one row of the table: the order, its checkbox (the table
    only) and the buttons of its menu, there when the menu is open on this
    order. *)
Record Row := mkRow {
  row_order : Order.t;
  row_checked : option bool;
  row_menu : list Button
}.

Definition renderRow (st : State) (order : Order.t) : Row :=
  mkRow order
    (match viewMode st with
     | card => None
     | table => Some (array_includes (selectedOrders st) (Order.id order))
     end)
    (match showActionsMenu st with
     | Some open => if open =? Order.id order then actionsMenu order else []
     | None => []
     end).

Record Page := mkPage {
  page_stats : Stats.t;
  page_bulk : list Button;
  page_selectAll : option bool;
  page_rows : list Row;
  page_empty : bool
}.

(** The card and the row of an order call [formatDateTime(order.created_at)]
    and [formatCurrency(order.amount, order.currency)] (lines 487 and 492,
    652 and 657): [Intl.DateTimeFormat.format] throws on an invalid date and
    [Intl.NumberFormat] on a currency code that is not well formed. *)
Definition formats (order : Order.t) : bool :=
  match Date_getTime (Order.created_at order) with
  | Some _ => true
  | None => false
  end
  && well_formed_currency (Order.currency order).

(** The render function (lines 195-738): the skeleton while loading, the
    page otherwise, unless formatting a displayed order throws. *)
Definition render (st : State) : Rendering Page :=
  if isLoading st then Skeleton
  else if forallb formats (displayed st)
  then Rendered (mkPage
    (stats (orders st))
    (bulkActionsBar st)
    (match viewMode st with
     | card => None
     | table =>
         Some ((length (selectedOrders st) =? length (displayed st))%nat
               && (0 <? length (displayed st))%nat)
     end)
    (map (renderRow st) (displayed st))
    (length (displayed st) =? 0)%nat)
  else RangeError.

(** Every button the page shows. *)
Definition buttons (p : Page) : list Button :=
  page_bulk p ++ concat (map row_menu (page_rows p)).

End View.
End Orders.


(* ===================================================================== *)
(** * The Analytics view ([src/pages/Analytics.tsx]) *)
(* ===================================================================== *)

Module Analytics.

Record RevenueData := mkRevenueData { date : string; total : float }.

(** One bar of the chart: the day it stands for and the [height] of its
    style, in percent of the bar container. *)
Record Bar := mkBar { bar_item : RevenueData; bar_height : float }.

Inductive Chart :=
| Skeleton
| Bars (bars : list Bar)
| NoData.

Section View.
Context `{JSRuntime}.

(** The comparator of the chart's sort (line 55). *)
Definition byDate (a b : RevenueData) : comparison :=
  sign_time (time_sub (Date_getTime (date a)) (Date_getTime (date b))).

(** [recentRevenueData] (lines 50-56). *)
Definition recentRevenueData (revenueData : option (list RevenueData))
    : list RevenueData :=
  match revenueData with
  | Some revenueData =>
      JS.sort byDate
        (slice_last 5
           (List.filter (fun item => (0 <? total item)%float) revenueData))
  | None => []
  end.

(** [recentMaxRevenue] (line 58). *)
Definition recentMaxRevenue (recent : list RevenueData) : float :=
  if (0 <? length recent)%nat then Math_max (map total recent) else 0%float.

(** [height] (line 198). *)
Definition height (recentMaxRevenue : float) (item : RevenueData) : float :=
  if (0 <? recentMaxRevenue)%float
  then (total item / recentMaxRevenue * 100)%float
  else 0%float.

(** The revenue chart (lines 179-234). *)
Definition chart (revenueLoading : bool)
    (revenueData : option (list RevenueData)) : Chart :=
  let recent := recentRevenueData revenueData in
  if revenueLoading then Skeleton
  else if (0 <? length recent)%nat
       then Bars (map (fun item => mkBar item (height (recentMaxRevenue recent) item))
                      recent)
       else NoData.

End View.
(** [totalRevenue] (line 46). *)
Definition totalRevenue (revenueData : option (list RevenueData)) : float :=
  match revenueData with
  | Some revenueData =>
      or_float
        (fold_left (fun sum item => (sum + or_float (total item) 0)%float)
                   revenueData 0%float)
        0%float
  | None => 0%float
  end.

(** The cells of the export: the period chosen in the select and the flag
    that disables the button. *)
Record ExportState := mkExportState { period : string; isExporting : bool }.

(** How [fetch] settles: with a response, whose body is then read, or with
    a network error. *)
Inductive FetchAnswer :=
| responded (ok : bool) (status : Z) (statusText : string) (text : ApiResult string)
| network_error (message : string).

Inductive ExportEffect :=
| fetch_get (url authorization accept : string)
| console_error
| download (data filename : string)
    (** the click on a link to the blob of [data], named [filename] *)
| toast_success (msg : string)
| toast_error (msg : string).

Section CsvExport.
(** What the browser provides: the base URL of the build, the day
    ([new Date().toISOString().split('T')[0]]), [parseInt], and whether
    links have the [download] attribute. *)
Variable API_BASE_URL : string.
Variable today : string.
Variable parseInt : string -> option Z.
Variable supportsDownload : bool.

(** [downloadCSV] (utils). *)
Definition downloadCSV (data filename : string) : list ExportEffect :=
  if supportsDownload then [download data filename] else [].

(** [exportAccountingData] (utils): the effects, and the message of the
    error it rethrows, if any. *)
Definition exportAccountingData (period : option Z) (token : option string)
    (answer : FetchAnswer) : list ExportEffect * option string :=
  let request :=
    fetch_get
      (API_BASE_URL +:+ "/dashboard/export-accounting?period="
         +:+ number_to_string period)
      ("Bearer " +:+ match token with Some t => t | None => "null" end)
      "text/csv" in
  match answer with
  | responded ok status statusText text =>
      if negb ok
      then ([request; console_error],
            Some ("Failed to export data: " +:+ pretty status +:+ " " +:+ statusText))
      else match text with
           | Resolved csvData =>
               let filename :=
                 "accounting_data_" +:+ today +:+ "_"
                   +:+ number_to_string period +:+ "days.csv" in
               (request :: downloadCSV csvData filename, None)
           | Rejected e =>
               ([request; console_error],
                Some (match e with Some m => m | None => "" end))
           end
  | network_error message => ([request; console_error], Some message)
  end.

(** [handleExportCSV] (lines 59-70), first half: up to the [await]. *)
Definition handleExportCSV_start (s : ExportState) : ExportState :=
  mkExportState (period s) true.

(** [handleExportCSV], second half: from the request to [finally]. *)
Definition handleExportCSV (token : option string) (answer : FetchAnswer)
    (s : ExportState) : ExportState * list ExportEffect :=
  let s := handleExportCSV_start s in
  match exportAccountingData (parseInt (period s)) token answer with
  | (effects, None) =>
      (mkExportState (period s) false,
       effects ++ [toast_success "Accounting data exported successfully!"])
  | (effects, Some _) =>
      (mkExportState (period s) false,
       effects ++ [console_error;
                   toast_error "Failed to export accounting data. Please try again."])
  end.

End CsvExport.

End Analytics.

(* ===================================================================== *)
(** * The forms with an image ([PropertyForm.tsx], [UpsellForm.tsx]) *)
(* ===================================================================== *)

(** A file picked in the browser. *)
Record File := mkFile { file_name : string; file_type : string; file_size : Z }.

(** The body of the answer of [/upload-image]. *)
Record UploadResponse := mkUploadResponse { url : option string }.

(** [Boolean(id)] for the [id] of the route. *)
Definition isEditing (id : option string) : bool :=
  match id with
  | Some s => truthy s
  | None => false
  end.

(** The image picker of the two forms ([PropertyForm.tsx], lines 241-265;
    [UpsellForm.tsx], lines 162-187: the same handler). *)
Module ImageField.

Record State := mkState {
  imagePreview : option string;
  selectedFile : option File
}.

(** [useState(null)] twice. *)
Definition initial : State := mkState None None.

Inductive Effect :=
| toast_error (msg : string)
| readAsDataURL (file : File).

(** [handleImageUpload]; [file] is [event.target.files?.[0]]. *)
Definition handleImageUpload (file : option File) (s : State) : State * list Effect :=
  match file with
  | Some file =>
      if negb (String.prefix "image/" (file_type file))
      then (s, [toast_error "Please select a valid image file"])
      else if 5 * 1024 * 1024 <? file_size file
           then (s, [toast_error "Image size must be less than 5MB"])
           else (mkState (imagePreview s) (Some file), [readAsDataURL file])
  | None => (s, [])
  end.

(** [reader.onload]: the data URL of the file read. *)
Definition reader_onload (result : option string) (s : State) : State :=
  mkState result (selectedFile s).

(** The remove button, as far as the picker goes. *)
Definition remove (s : State) : State := mkState None None.

Inductive Event :=
| FileChosen (file : option File)
| FileRead (result : option string)
| RemoveClicked.

Definition step (s : State) (ev : Event) : State :=
  match ev with
  | FileChosen file => fst (handleImageUpload file s)
  | FileRead result => reader_onload result s
  | RemoveClicked => remove s
  end.

Definition run (events : list Event) : State := fold_left step events initial.

End ImageField.

Module PropertyForm.

Inductive PaymentProcessor := stripe | wise.
Inductive PayoutSchedule := manual | weekly | monthly.

Record WiseAccountDetails := mkWise {
  bank_name : option string;
  account_number : option string;
  routing_number : option string;
  swift_code : option string;
  account_holder_name : option string;
  instructions : option string
}.

Record PropertyFormData := mkData {
  name : string;
  description : string;
  instagram_url : string;
  language : string;
  currency : string;
  tags : list string;
  hero_image_url : option string;
  payment_processor : PaymentProcessor;
  payout_schedule : PayoutSchedule;
  wise_account_details : option WiseAccountDetails
}.

Inductive Effect :=
| api_post_upload_image (image : File)
| api_post_properties (data : PropertyFormData)
    (** [createMutation.mutate]: [api.post('/properties', data)] *)
| api_put_property (id : option string) (data : PropertyFormData)
    (** [updateMutation.mutate]: [api.put(`/properties/${id}`, data)] *)
| toast_error (msg : string).

(** [{ ...data, hero_image_url: imageUrl }] *)
Definition submitData (data : PropertyFormData) (imageUrl : option string)
    : PropertyFormData :=
  mkData (name data) (description data) (instagram_url data) (language data)
    (currency data) (tags data) imageUrl (payment_processor data)
    (payout_schedule data) (wise_account_details data).

(** [onSubmit] (lines 167-198). [upload] is how the server answers the
    upload of a file. The effects are listed in the order they happen. *)
Definition onSubmit (id : option string) (selectedFile : option File)
    (upload : File -> ApiResult UploadResponse) (data : PropertyFormData)
    : list Effect :=
  let imageUrl := hero_image_url data in
  let uploaded :=
    match selectedFile with
    | Some file =>
        match upload file with
        | Resolved uploadResponse =>
            ([api_post_upload_image file], Resolved (url uploadResponse))
        | Rejected e => ([api_post_upload_image file], Rejected e)
        end
    | None => ([], Resolved imageUrl)
    end in
  match uploaded with
  | (sent, Resolved imageUrl) =>
      sent ++ [if isEditing id
               then api_put_property id (submitData data imageUrl)
               else api_post_properties (submitData data imageUrl)]
  | (sent, Rejected _) => sent ++ [toast_error "Failed to upload image"]
  end.

(** The remove button of the image (lines 389-393). *)
Definition removeImage (s : ImageField.State) (data : PropertyFormData)
    : ImageField.State * PropertyFormData :=
  (ImageField.remove s, submitData data (Some ""%string)).

(** The tag editor: the tags of the form as [watch('tags')] gives them
    ([undefined] until set) and the text typed. *)
Record TagState := mkTags {
  watchedTags : option (list string);
  tagInput : string
}.

Section Tags.
(** [String.prototype.trim] of the runtime. *)
Variable trim : string -> string.

(** [addTag] (lines 200-205). *)
Definition addTag (s : TagState) : TagState :=
  if truthy (trim (tagInput s))
     && negb (match watchedTags s with
              | Some l => existsb (String.eqb (trim (tagInput s))) l
              | None => false
              end)
  then mkTags (Some (match watchedTags s with Some l => l | None => [] end
                       ++ [trim (tagInput s)]))
              ""
  else s.

(** [removeTag] (lines 207-209). *)
Definition removeTag (tagToRemove : string) (s : TagState) : TagState :=
  mkTags (Some (match watchedTags s with
                | Some l => List.filter (fun tag => negb (String.eqb tag tagToRemove)) l
                | None => []
                end))
         (tagInput s).

Inductive TagEvent :=
| Typed (text : string)
| AddClicked
| RemoveClicked (tag : string).

Definition tag_step (s : TagState) (ev : TagEvent) : TagState :=
  match ev with
  | Typed text => mkTags (watchedTags s) text
  | AddClicked => addTag s
  | RemoveClicked tag => removeTag tag s
  end.

End Tags.

(** The property as the backend sends it ([types], [Property]), as far as
    the form reads it. *)
Record PropertyEntity := mkEntity {
  property_name : string;
  property_description : option string;
  property_instagram_url : option string;
  property_hero_image_url : option string;
  property_language : string;
  property_currency : string;
  property_tags : option (list string);
  property_payment_processor : PaymentProcessor;
  property_payout_schedule : PayoutSchedule;
  property_wise_account_details : option WiseAccountDetails
}.

(** [defaultValues] (lines 62-79). *)
Definition defaultValues : PropertyFormData :=
  mkData "" "" "" "en" "USD" [] None stripe manual
    (Some (mkWise (Some "") (Some "") (Some "") (Some "") (Some "") (Some ""))%string).

(** The effect that fills the form once the property is loaded
    (lines 91-118): the new form data and the new preview. *)
Definition populate (property : PropertyEntity) (data : PropertyFormData)
    (preview : option string) : PropertyFormData * option string :=
  let filled :=
    mkData (property_name property)
      (or_string (property_description property) "")
      (or_string (property_instagram_url property) "")
      (property_language property)
      (property_currency property)
      (match property_tags property with Some l => l | None => [] end)
      (hero_image_url data)
      (property_payment_processor property)
      (property_payout_schedule property)
      (Some (match property_wise_account_details property with
             | Some d => d
             | None => mkWise (Some "") (Some "") (Some "") (Some "") (Some "") (Some "")
             end))%string in
  match property_hero_image_url property with
  | Some u =>
      if truthy u then (submitData filled (Some u), Some u) else (filled, preview)
  | None => (filled, preview)
  end.

End PropertyForm.

Module UpsellForm.

(** A value of type [any]: its JSON text. *)
Inductive any := json (text : string).

Record UpsellFormData := mkData {
  property_id : Z;
  primary_vendor_id : Z;
  secondary_vendor_id : option Z;
  title : string;
  description : string;
  price : float;
  category : string;
  image_url : option string;
  availability_rules : any;
  is_active : bool;
  sort_order : Z
}.

Inductive Effect :=
| api_post_upload_image (image : File)
| api_post_upsells (data : UpsellFormData)
    (** [createMutation.mutate]: [api.post('/upsells', data)] *)
| api_put_upsell (id : option string) (data : UpsellFormData)
    (** [updateMutation.mutate]: [api.put(`/upsells/${id}`, data)] *)
| toast_error (msg : string).

(** [{ ...data, image_url: imageUrl }] *)
Definition submitData (data : UpsellFormData) (imageUrl : option string)
    : UpsellFormData :=
  mkData (property_id data) (primary_vendor_id data) (secondary_vendor_id data)
    (title data) (description data) (price data) (category data) imageUrl
    (availability_rules data) (is_active data) (sort_order data).

(** [onSubmit] (lines 131-160). *)
Definition onSubmit (id : option string) (selectedFile : option File)
    (upload : File -> ApiResult UploadResponse) (data : UpsellFormData)
    : list Effect :=
  let imageUrl := image_url data in
  let uploaded :=
    match selectedFile with
    | Some file =>
        match upload file with
        | Resolved uploadResponse =>
            ([api_post_upload_image file], Resolved (url uploadResponse))
        | Rejected e => ([api_post_upload_image file], Rejected e)
        end
    | None => ([], Resolved imageUrl)
    end in
  match uploaded with
  | (sent, Resolved imageUrl) =>
      sent ++ [if isEditing id
               then api_put_upsell id (submitData data imageUrl)
               else api_post_upsells (submitData data imageUrl)]
  | (sent, Rejected _) => sent ++ [toast_error "Failed to upload image"]
  end.

(** The remove button of the image (lines 367-371). *)
Definition removeImage (s : ImageField.State) (data : UpsellFormData)
    : ImageField.State * UpsellFormData :=
  (ImageField.remove s, submitData data (Some ""%string)).

(** The upsell as the backend sends it ([types], [Upsell]), as far as the
    form reads it. *)
Record UpsellEntity := mkEntity {
  upsell_property_id : Z;
  upsell_primary_vendor_id : Z;
  upsell_secondary_vendor_id : option Z;
  upsell_title : string;
  upsell_description : option string;
  upsell_price : float;
  upsell_category : string;
  upsell_image_url : option string;
  upsell_availability_rules : option any;
  upsell_is_active : bool;
  upsell_sort_order : Z
}.

(** [defaultValues] (lines 47-59). *)
Definition defaultValues : UpsellFormData :=
  mkData 0 0 None "" "" 0%float "chef" (Some ""%string) (json "{}") true 0.

(** The effect that fills the form once the upsell is loaded (lines 81-98):
    the new form data and the new preview. *)
Definition populate (upsell : UpsellEntity) (data : UpsellFormData)
    (preview : option string) : UpsellFormData * option string :=
  (mkData (upsell_property_id upsell)
     (upsell_primary_vendor_id upsell)
     (match upsell_secondary_vendor_id upsell with
      | Some v => if v =? 0 then None else Some v
      | None => None
      end)
     (upsell_title upsell)
     (or_string (upsell_description upsell) "")
     (upsell_price upsell)
     (upsell_category upsell)
     (Some (or_string (upsell_image_url upsell) ""))
     (match upsell_availability_rules upsell with
      | Some r => r
      | None => json "{}"
      end)
     (upsell_is_active upsell)
     (upsell_sort_order upsell),
   match upsell_image_url upsell with
   | Some u => if truthy u then Some u else preview
   | None => preview
   end).

End UpsellForm.

(* ===================================================================== *)
(** * The session context ([AuthProvider]) *)
(* ===================================================================== *)

Module AuthContext.

Inductive Role := admin | owner.

Record User := mkUser {
  id : Z;
  name : string;
  email : string;
  role : Role;
  stripe_account_id : option string;
  is_active : bool
}.

(** The state cells of the provider. *)
Record State := mkState {
  user : option User;
  token : option string;
  isLoading : bool
}.

(** The provider and the storage of the browser it writes to. *)
Record World := mkWorld {
  state : State;
  localStorage : gmap string string
}.

(** The body of the answer of [/me] and of [/login]. *)
Record MeResponse := mkMe { me_user : option User }.
Record LoginResponse := mkLogin { login_user : option User; access_token : string }.

Inductive Request :=
| api_get_me
| api_post_login (email password : string).

(** How an [async] function ends: its promise is fulfilled, or rejected
    with an [Error] that reaches the caller. *)
Inductive Completion :=
| Returned (w : World) (sent : list Request)
| Thrown (w : World) (sent : list Request) (message : string).

(** The first render: [useState(localStorage.getItem('token'))]. *)
Definition mount (storage : gmap string string) : World :=
  mkWorld (mkState None (storage !! "token") true) storage.

Definition token_truthy (token : option string) : bool :=
  match token with
  | Some s => truthy s
  | None => false
  end.

(** [initAuth] (lines 41-52); [me] is how [/me] answers if it is asked. *)
Definition initAuth (me : ApiResult MeResponse) (w : World) : Completion :=
  let st := state w in
  if token_truthy (token st) then
    match me with
    | Resolved response =>
        Returned (mkWorld (mkState (me_user response) (token st) false)
                          (localStorage w))
                 [api_get_me]
    | Rejected _ =>
        Returned (mkWorld (mkState (user st) None false)
                          (delete "token" (localStorage w)))
                 [api_get_me]
    end
  else Returned (mkWorld (mkState (user st) (token st) false) (localStorage w)) [].

(** [login] (lines 57-69). *)
Definition login (email password : string) (answer : ApiResult LoginResponse)
    (w : World) : Completion :=
  match answer with
  | Resolved response =>
      Returned (mkWorld (mkState (login_user response)
                                 (Some (access_token response))
                                 (isLoading (state w)))
                        (<["token" := access_token response]> (localStorage w)))
               [api_post_login email password]
  | Rejected message =>
      Thrown w [api_post_login email password]
        (match message with
         | Some m => if truthy m then m else "Login failed"
         | None => "Login failed"
         end)
  end.

(** [logout] (lines 71-75). *)
Definition logout (w : World) : World :=
  mkWorld (mkState None None (isLoading (state w)))
          (delete "token" (localStorage w)).

End AuthContext.


(* ===================================================================== *)
(** * A runtime for the examples *)
(* ===================================================================== *)

Module ExampleRuntime.

Definition lower_ascii (c : ascii) : ascii :=
  let n := nat_of_ascii c in
  if ((65 <=? n) && (n <=? 90))%nat then ascii_of_nat (n + 32) else c.

Fixpoint lower (s : string) : string :=
  match s with
  | EmptyString => EmptyString
  | String c s' => String (lower_ascii c) (lower s')
  end.

Definition digit (c : ascii) : option Z :=
  let n := nat_of_ascii c in
  if ((48 <=? n) && (n <=? 57))%nat then Some (Z.of_nat (n - 48)) else None.

(** Reads a date written [YYYY-MM-DD] as the number [YYYYMMDD], which
    grows with the date; any other character makes the date invalid. *)
Fixpoint read_date (acc : Z) (s : string) : option Z :=
  match s with
  | EmptyString => Some acc
  | String c s' =>
      if Ascii.eqb c "-" then read_date acc s'
      else match digit c with
           | Some d => read_date (10 * acc + d) s'
           | None => None
           end
  end.

#[export] Instance runtime : JSRuntime := {|
  toLowerCase := lower;
  Date_getTime := fun s =>
    match s with
    | EmptyString => None
    | _ => read_date 0 s
    end
|}.

End ExampleRuntime.

(* ===================================================================== *)
(** * Vocabulary of the properties *)
(* ===================================================================== *)

(** [sub] occurs in [s]. *)
Definition substring_of (sub s : string) : Prop :=
  exists pre post : string, s = pre +:+ sub +:+ post.

(** [a] is before [b], or level with it, in the order of the key. *)
Definition key_le {A : Type} (key : A -> Z) (a b : A) : Prop := key a <= key b.

(** [query] occurs in [field] when case is ignored. *)
Definition ci_substring `{JSRuntime} (query field : string) : Prop :=
  substring_of (toLowerCase query) (toLowerCase field).

(** The search of the specification: [query] occurs, case ignored, in one
    of the five fields of the order; a relation the order does not have
    offers no field. *)
Definition matches_query `{JSRuntime} (query : string) (o : Order.t) : Prop :=
  ci_substring query (Order.guest_name o)
  \/ ci_substring query (Order.guest_email o)
  \/ (exists u, Order.upsell o = Some u /\ ci_substring query (Upsell.title u))
  \/ (exists p, Order.property o = Some p /\ ci_substring query (Property.name p))
  \/ (exists v, Order.vendor o = Some v /\ ci_substring query (Vendor.name v)).

(** The order of the statuses the specification fixes. *)
Definition canonical : list OrderStatus := [pending; confirmed; fulfilled; cancelled].

(** [s] is one of the statuses of [l]. *)
Definition occurs (l : list OrderStatus) (s : OrderStatus) : bool :=
  existsb (OrderStatus_eqb s) l.

Definition rank_lt (s t : OrderStatus) : Prop :=
  Orders.statusOrder s < Orders.statusOrder t.

Definition rank_gt (s t : OrderStatus) : Prop :=
  Orders.statusOrder t < Orders.statusOrder s.





(** [a] stands before [b] in [l]. *)
Definition before {A : Type} (a b : A) (l : list A) : Prop :=
  exists l1 l2 l3, l = l1 ++ a :: l2 ++ b :: l3.

(** The claim on the order of the chart as the specification states it, for
    one series: of two entries of the chart whose dates are valid, the one
    that stands first is not the later one. *)
Definition chart_in_date_order `{JSRuntime}
    (revenueData : list Analytics.RevenueData) : Prop :=
  forall a b ta tb,
    before a b (Analytics.recentRevenueData (Some revenueData)) ->
    Date_getTime (Analytics.date a) = Some ta ->
    Date_getTime (Analytics.date b) = Some tb ->
    ta <= tb.

(** The legal edges of the specification. *)
Definition legal_targets (from : OrderStatus) : list OrderStatus :=
  match from with
  | pending => [confirmed; cancelled]
  | confirmed => [fulfilled; cancelled]
  | fulfilled | cancelled => []
  end.

Definition terminal (s : OrderStatus) : bool :=
  match s with
  | fulfilled | cancelled => true
  | pending | confirmed => false
  end.

(** The request [e] asks the backend to move the order [o] to [target]. *)
Definition moves (o : Order.t) (target : OrderStatus) (e : Orders.Effect) : Prop :=
  match e with
  | Orders.api_put_order_status id s => id = Order.id o /\ s = status_name target
  | Orders.api_put_bulk_update ids s => In (Order.id o) ids /\ s = status_name target
  | _ => False
  end.

(** The claim as the specification states it, for the page of one state:
    whatever button of the page is clicked, a request it issues moves a
    fetched order along a legal edge only. *)
Definition offers_only_legal_moves `{JSRuntime} (st : Orders.State) : Prop :=
  forall page fetched o b e target,
    Orders.render st = Orders.Rendered page ->
    Orders.orders st = Some fetched -> In o fetched ->
    In b (Orders.buttons page) ->
    In e (snd (Orders.step st (Orders.onClick b))) ->
    moves o target e ->
    In target (legal_targets (Order.status o)).

(** The events run one after the other, the effects dropped. *)
Definition run `{JSRuntime} (st : Orders.State) (events : list Orders.Event)
    : Orders.State :=
  fold_left (fun st ev => fst (Orders.step st ev)) events st.

(** The payload differs from the form data in the image field at most. *)
Definition property_fields_pass (data payload : PropertyForm.PropertyFormData) : Prop :=
  PropertyForm.name payload = PropertyForm.name data
  /\ PropertyForm.description payload = PropertyForm.description data
  /\ PropertyForm.instagram_url payload = PropertyForm.instagram_url data
  /\ PropertyForm.language payload = PropertyForm.language data
  /\ PropertyForm.currency payload = PropertyForm.currency data
  /\ PropertyForm.tags payload = PropertyForm.tags data
  /\ PropertyForm.payment_processor payload = PropertyForm.payment_processor data
  /\ PropertyForm.payout_schedule payload = PropertyForm.payout_schedule data
  /\ PropertyForm.wise_account_details payload = PropertyForm.wise_account_details data.

Definition upsell_fields_pass (data payload : UpsellForm.UpsellFormData) : Prop :=
  UpsellForm.property_id payload = UpsellForm.property_id data
  /\ UpsellForm.primary_vendor_id payload = UpsellForm.primary_vendor_id data
  /\ UpsellForm.secondary_vendor_id payload = UpsellForm.secondary_vendor_id data
  /\ UpsellForm.title payload = UpsellForm.title data
  /\ UpsellForm.description payload = UpsellForm.description data
  /\ UpsellForm.price payload = UpsellForm.price data
  /\ UpsellForm.category payload = UpsellForm.category data
  /\ UpsellForm.availability_rules payload = UpsellForm.availability_rules data
  /\ UpsellForm.is_active payload = UpsellForm.is_active data
  /\ UpsellForm.sort_order payload = UpsellForm.sort_order data.

(** The create or update request of each form, by the route. *)
Definition property_request (id : option string)
    (payload : PropertyForm.PropertyFormData) : PropertyForm.Effect :=
  if isEditing id then PropertyForm.api_put_property id payload
  else PropertyForm.api_post_properties payload.

Definition upsell_request (id : option string)
    (payload : UpsellForm.UpsellFormData) : UpsellForm.Effect :=
  if isEditing id then UpsellForm.api_put_upsell id payload
  else UpsellForm.api_post_upsells payload.

(** The binary64 values above zero: the positive finite ones and
    [+Infinity]. *)
Definition positive_sf (s : spec_float) : Prop :=
  s = S754_infinity false \/ exists m e, s = S754_finite false m e.

(** What [Math.max] has established once it has gone through [seen]. *)
Definition max_inv (seen : list float) (highest : float) : Prop :=
  (seen = [] /\ highest = neg_infinity)
  \/ ((0 <? highest)%float = true
      /\ In highest seen
      /\ forall y, In y seen -> (highest <? y)%float = false).

(** [a] is not after [b], both dates being valid. *)
Definition chronological `{JSRuntime} (a b : Analytics.RevenueData) : Prop :=
  match Date_getTime (Analytics.date a), Date_getTime (Analytics.date b) with
  | Some ta, Some tb => ta <= tb
  | _, _ => False
  end.

Definition positive_total (item : Analytics.RevenueData) : bool :=
  (0 <? Analytics.total item)%float.

(** Example data: the three orders of the specification's example, and a
    fulfilled one. *)
Module Examples.

Definition alice : Order.t :=
  Order.mk 1 "Alice Martin" "alice@example.com" 10%float "USD" pending
    "2024-03-01" (Some (Property.mk 1 "Villa Azul"))
    (Some (Upsell.mk 1 "Private Chef")) (Some (Vendor.mk 1 "Chef Marco" "chef")).

Definition bob : Order.t :=
  Order.mk 2 "Bob Stone" "bob@example.com" 5%float "USD" cancelled
    "2024-03-03" None (Some (Upsell.mk 2 "Airport Transfer")) None.

Definition carla : Order.t :=
  Order.mk 3 "Carla Diaz" "carla@example.com" 20%float "USD" confirmed
    "2024-03-02" (Some (Property.mk 1 "Villa Azul"))
    (Some (Upsell.mk 1 "Private Chef")) (Some (Vendor.mk 1 "Chef Marco" "chef")).

Definition dora : Order.t :=
  Order.mk 4 "Dora Klein" "dora@example.com" 7.5%float "EUR" fulfilled
    "2024-02-27" (Some (Property.mk 2 "Casa Verde"))
    (Some (Upsell.mk 3 "Spa Day")) (Some (Vendor.mk 2 "Wellness Co" "wellness")).

Definition fetched : list Order.t := [alice; bob; carla].

(** The page once [fetched] is loaded, nothing selected, no search. *)
Definition loaded : Orders.State :=
  Orders.mkState "" "" "" "" None [] Orders.card Orders.date Orders.desc false
    (Some fetched) false.

End Examples.

(** A page showing a pending and a fulfilled order, on which the user
    switches to the table and ticks the fulfilled one. *)
Definition fulfilled_ticked `{JSRuntime} : Orders.State :=
  run (Orders.mkState "" "" "" "" None [] Orders.card Orders.date Orders.desc false
         (Some [Examples.alice; Examples.dora]) false)
      [Orders.ViewModeClicked Orders.table; Orders.SelectOrderClicked 4].

(** [a] was created no later than [b], both dates being valid. *)
Definition created_le `{JSRuntime} (a b : Order.t) : Prop :=
  match Date_getTime (Order.created_at a), Date_getTime (Order.created_at b) with
  | Some ta, Some tb => ta <= tb
  | _, _ => False
  end.

(** A file the picker accepts: an image of five mebibytes at most. *)
Definition valid_image (file : File) : Prop :=
  String.prefix "image/" (file_type file) = true /\ file_size file <= 5242880.

(** The tags are pairwise distinct and none is empty. *)
Definition tags_ok (s : PropertyForm.TagState) : Prop :=
  match PropertyForm.watchedTags s with
  | Some l => List.NoDup l /\ forall t, In t l -> truthy t = true
  | None => True
  end.

(** The token in memory is the token in the storage. *)
Definition token_synced (w : AuthContext.World) : Prop :=
  AuthContext.token (AuthContext.state w)
  = AuthContext.localStorage w !! "token".

(** The world an [async] function of the provider ends in. *)
Definition world_after (c : AuthContext.Completion) : AuthContext.World :=
  match c with
  | AuthContext.Returned w _ => w
  | AuthContext.Thrown w _ _ => w
  end.

(** The downloads and the toasts among the effects of an export. *)
Definition downloads (effects : list Analytics.ExportEffect)
    : list (string * string) :=
  flat_map (fun e => match e with
                     | Analytics.download data filename => [(data, filename)]
                     | _ => []
                     end) effects.

Definition toasts (effects : list Analytics.ExportEffect) : list (bool * string) :=
  flat_map (fun e => match e with
                     | Analytics.toast_success msg => [(true, msg)]
                     | Analytics.toast_error msg => [(false, msg)]
                     | _ => []
                     end) effects.

(** The files an [onSubmit] uploads. *)
Definition property_uploads (effects : list PropertyForm.Effect) : list File :=
  flat_map (fun e => match e with
                     | PropertyForm.api_post_upload_image file => [file]
                     | _ => []
                     end) effects.

Definition upsell_uploads (effects : list UpsellForm.Effect) : list File :=
  flat_map (fun e => match e with
                     | UpsellForm.api_post_upload_image file => [file]
                     | _ => []
                     end) effects.

(** The server answered the export with a body that could be read. *)
Definition exported (answer : Analytics.FetchAnswer) : option string :=
  match answer with
  | Analytics.responded true _ _ (Resolved csvData) => Some csvData
  | _ => None
  end.

(** More example data: the table with every fetched order ticked, the
    cards with the menu of the first order open, a photo, a villa and a
    storage. *)
Module MoreExamples.

Definition all_ticked : Orders.State :=
  Orders.mkState "" "" "" "" None [1; 3; 2] Orders.table Orders.date Orders.desc
    false (Some Examples.fetched) false.

Definition menu_open : Orders.State :=
  Orders.mkState "" "" "" "" (Some 1) [] Orders.card Orders.date Orders.desc
    false (Some Examples.fetched) false.

Definition photo : File := mkFile "pool.jpg" "image/jpeg" 204800.

Definition tags : PropertyForm.TagState :=
  PropertyForm.mkTags (Some ["pool"; "beach"]%string) "  sauna ".

(** Removes the spaces at both ends. *)
Fixpoint trim_left (s : string) : string :=
  match s with
  | String " " s' => trim_left s'
  | _ => s
  end.

Definition trim (s : string) : string :=
  String.rev (trim_left (String.rev (trim_left s))).

Definition storage : gmap string string :=
  <["theme" := "dark"]> ∅.



(** Three days with revenue, the date of the second unreadable. *)
Definition series : list Analytics.RevenueData :=
  [Analytics.mkRevenueData "2024-03-05" 10;
   Analytics.mkRevenueData "soon" 20;
   Analytics.mkRevenueData "2024-03-01" 30].

End MoreExamples.

(* ===================================================================== *)
(** * Properties of the built-ins *)
(* ===================================================================== *)

Lemma prefix_spec (p s : string) :
  String.prefix p s = true <-> exists post, s = p +:+ post.
Proof.
  revert s. induction p as [|a p IH]; intros s.
  - split; [intros _; exists s; reflexivity | intros _; destruct s; reflexivity].
  - destruct s as [|b s]; simpl.
    + split; [discriminate | intros [post Hp]; discriminate].
    + destruct (Ascii.ascii_dec a b) as [->|Hab].
      * rewrite IH. split; intros [post Hp]; exists post.
        -- now rewrite Hp.
        -- now injection Hp.
      * split; [discriminate | intros [post Hp]; injection Hp; congruence].
Qed.

Lemma includes_spec (s sub : string) :
  includes s sub = true <-> substring_of sub s.
Proof.
  unfold substring_of. induction s as [|a s IH].
  - cbn [includes]. rewrite orb_false_r, prefix_spec. split.
    + intros [post Hp]. exists EmptyString, post. exact Hp.
    + intros [[|c pre] [post Hp]]; [exists post; exact Hp | discriminate].
  - cbn [includes]. rewrite orb_true_iff, prefix_spec, IH. split.
    + intros [[post Hp] | (pre & post & Hp)].
      * exists EmptyString, post. exact Hp.
      * exists (String a pre), post. simpl. now rewrite Hp.
    + intros [[|c pre] [post Hp]].
      * left. exists post. exact Hp.
      * right. exists pre, post. simpl in Hp. now injection Hp.
Qed.

Section SortFacts.
Context {A : Type} (cmp : A -> A -> comparison).

Lemma sort_insert_Permutation (x : A) (l : list A) :
  Permutation (sort_insert cmp x l) (x :: l).
Proof.
  induction l as [|y l IH]; simpl; [reflexivity|].
  destruct (cmp x y); try reflexivity.
  rewrite IH. apply perm_swap.
Qed.

Lemma sort_Permutation (l : list A) : Permutation (JS.sort cmp l) l.
Proof.
  induction l as [|x l IH]; simpl; [reflexivity|].
  rewrite sort_insert_Permutation. now apply perm_skip.
Qed.

Lemma sort_In (l : list A) (x : A) : In x (JS.sort cmp l) <-> In x l.
Proof.
  split; apply Permutation_in;
    [apply sort_Permutation | symmetry; apply sort_Permutation].
Qed.

Lemma sort_length (l : list A) : length (JS.sort cmp l) = length l.
Proof. apply Permutation_length, sort_Permutation. Qed.

(** When the comparator compares an integer key, the result is in the
    order of the key. *)
Variable key : A -> Z.

Lemma sort_insert_sorted (x : A) (l : list A) :
  (forall y, In y l -> cmp x y = (key x ?= key y)) ->
  StronglySorted (key_le key) l ->
  StronglySorted (key_le key) (sort_insert cmp x l).
Proof.
  induction l as [|y l IH]; intros Hcmp Hs; simpl.
  - constructor; constructor.
  - assert (Hy := Hcmp y (or_introl eq_refl)).
    inversion Hs as [|? ? Hs' Hall]; subst.
    destruct (cmp x y) eqn:E; symmetry in Hy.
    + apply Z.compare_eq_iff in Hy.
      constructor; [exact Hs|]. constructor; [unfold key_le; lia|].
      eapply Forall_impl; [exact Hall|]. unfold key_le. intros; lia.
    + change (key x < key y) in Hy.
      constructor; [exact Hs|]. constructor; [unfold key_le; lia|].
      eapply Forall_impl; [exact Hall|]. unfold key_le. intros; lia.
    + change (key x > key y) in Hy.
      constructor.
      * apply IH; [intros z Hz; apply Hcmp; now right | exact Hs'].
      * apply List.Forall_forall. intros z Hz.
        apply (Permutation_in _ (sort_insert_Permutation x l)) in Hz.
        destruct Hz as [<-|Hz]; [unfold key_le; lia|].
        rewrite List.Forall_forall in Hall. now apply Hall.
Qed.

Lemma sort_sorted (l : list A) :
  (forall x y, In x l -> In y l -> cmp x y = (key x ?= key y)) ->
  StronglySorted (key_le key) (JS.sort cmp l).
Proof.
  induction l as [|x l IH]; intros Hcmp; simpl; [constructor|].
  apply sort_insert_sorted.
  - intros y Hy. apply (proj1 (sort_In l y)) in Hy.
    apply Hcmp; [left; reflexivity | right; exact Hy].
  - apply IH. intros a b Ha Hb. apply Hcmp; now right.
Qed.

End SortFacts.

(* ===================================================================== *)
(** * Orders: search *)
(* ===================================================================== *)

Lemma chain_true {A : Type} (o : option A) (f : A -> bool) :
  Orders.chain o f = true <-> exists a, o = Some a /\ f a = true.
Proof.
  destruct o as [a|]; simpl.
  - split; [intros Hf; exists a; auto | intros (b & [= <-] & Hf); exact Hf].
  - split; [discriminate | intros (b & Hb & _); discriminate].
Qed.

Lemma matchesSearch_spec `{JSRuntime} (query : string) (o : Order.t) :
  Orders.matchesSearch query o = true <-> matches_query query o.
Proof.
  unfold Orders.matchesSearch, matches_query, ci_substring.
  rewrite !orb_true_iff, !chain_true, !includes_spec.
  setoid_rewrite includes_spec. tauto.
Qed.

Lemma displayed_Permutation `{JSRuntime} (orders : list Order.t)
    (query : string) (sortBy : Orders.SortBy) (sortOrder : Orders.SortOrder) :
  Permutation (Orders.filteredAndSortedOrders (Some orders) query sortBy sortOrder)
              (List.filter (Orders.matchesSearch query) orders).
Proof. apply sort_Permutation. Qed.

(** C1. For every fetched order list and every query, an order is in the
    displayed list iff it was fetched and the query is a case-insensitive
    substring of its guest name, or of its guest email, or of the title of
    its upsell, or of the name of its property, or of the name of its
    vendor; this under every sort key and direction. *)
Theorem search_keeps_iff_some_field_matches `{JSRuntime}
    (orders : list Order.t) (query : string)
    (sortBy : Orders.SortBy) (sortOrder : Orders.SortOrder) (o : Order.t) :
  In o (Orders.filteredAndSortedOrders (Some orders) query sortBy sortOrder)
  <->
  In o orders /\ matches_query query o.
Proof.
  rewrite <- matchesSearch_spec, <- filter_In.
  split; apply Permutation_in;
    [apply displayed_Permutation | symmetry; apply displayed_Permutation].
Qed.

(** The query is lower-cased before it is looked for: "CHEF" finds the two
    orders of the private chef by the title of their upsell; "villa" does
    not find the order that has no property; the empty query finds all. *)
Example search_examples :
  map Order.id
    (Orders.filteredAndSortedOrders (H := ExampleRuntime.runtime)
       (Some Examples.fetched) "CHEF" Orders.date Orders.asc) = [1; 3]
  /\ map Order.id
       (Orders.filteredAndSortedOrders (H := ExampleRuntime.runtime)
          (Some Examples.fetched) "villa" Orders.date Orders.desc) = [3; 1]
  /\ map Order.id
       (Orders.filteredAndSortedOrders (H := ExampleRuntime.runtime)
          (Some Examples.fetched) "" Orders.amount Orders.desc) = [3; 1; 2].
Proof. repeat split; vm_compute; reflexivity. Qed.

(* ===================================================================== *)
(** * Orders: sorting by status *)
(* ===================================================================== *)

Lemma OrderStatus_eqb_eq (a b : OrderStatus) :
  OrderStatus_eqb a b = true <-> a = b.
Proof. destruct a, b; simpl; split; congruence. Qed.

Lemma occurs_In (l : list OrderStatus) (s : OrderStatus) :
  occurs l s = true <-> In s l.
Proof.
  unfold occurs. rewrite existsb_exists. split.
  - intros (t & Ht & E). apply OrderStatus_eqb_eq in E. now subst.
  - intros Hs. exists s. split; [exact Hs | now apply OrderStatus_eqb_eq].
Qed.

Lemma statusOrder_inj (s t : OrderStatus) :
  Orders.statusOrder s = Orders.statusOrder t -> s = t.
Proof. destruct s, t; simpl; intros E; congruence || discriminate E. Qed.

Lemma compareOrders_status_asc `{JSRuntime} (a b : Order.t) :
  Orders.compareOrders Orders.status Orders.asc a b
  = (Orders.statusOrder (Order.status a) ?= Orders.statusOrder (Order.status b)).
Proof.
  unfold Orders.compareOrders, sign_int.
  rewrite <- Z.compare_sub.
  destruct (Order.status a), (Order.status b); reflexivity.
Qed.

Lemma compareOrders_status_desc `{JSRuntime} (a b : Order.t) :
  Orders.compareOrders Orders.status Orders.desc a b
  = (- Orders.statusOrder (Order.status a) ?= - Orders.statusOrder (Order.status b)).
Proof.
  unfold Orders.compareOrders, sign_int.
  rewrite <- Z.compare_sub.
  destruct (Order.status a), (Order.status b); reflexivity.
Qed.

Lemma NoDup_map_filter {A B : Type} (f : A -> B) (p : A -> bool) (l : list A) :
  List.NoDup (map f l) -> List.NoDup (map f (List.filter p l)).
Proof.
  induction l as [|x l IH]; simpl; intros Hn; [constructor|].
  apply List.NoDup_cons_iff in Hn as [Hx Hn].
  destruct (p x); simpl; [|now apply IH].
  apply List.NoDup_cons_iff. split; [|now apply IH].
  intros Hin. apply Hx. apply in_map_iff in Hin as (y & Hy & Hin).
  apply filter_In in Hin as [Hin _]. apply in_map_iff. now exists y.
Qed.

(** A list in the order of an integer key, whose images under [f] are
    pairwise distinct and determine the key, is strictly ordered once
    mapped. *)
Lemma sorted_map_strict {A B : Type} (key : A -> Z) (f : A -> B) (g : B -> Z)
    (l : list A) :
  (forall a, key a = g (f a)) ->
  (forall s t, g s = g t -> s = t) ->
  StronglySorted (key_le key) l ->
  List.NoDup (map f l) ->
  StronglySorted (fun s t => g s < g t) (map f l).
Proof.
  intros Hkey Hinj. induction l as [|x l IH]; simpl; intros Hs Hn; [constructor|].
  inversion Hs as [|? ? Hs' Hall]; subst.
  apply List.NoDup_cons_iff in Hn as [Hx Hn].
  constructor; [now apply IH|].
  apply List.Forall_forall. intros t Ht.
  apply in_map_iff in Ht as (y & <- & Hy).
  rewrite List.Forall_forall in Hall. specialize (Hall y Hy).
  unfold key_le in Hall. rewrite !Hkey in Hall.
  assert (g (f x) <> g (f y)); [|lia].
  intros E. apply Hinj in E. apply Hx. rewrite E. now apply in_map.
Qed.

Lemma StronglySorted_filter_list {A : Type} (R : A -> A -> Prop)
    (p : A -> bool) (l : list A) :
  StronglySorted R l -> StronglySorted R (List.filter p l).
Proof.
  induction 1 as [|x l Hs IH Hall]; simpl; [constructor|].
  destruct (p x); [|exact IH].
  constructor; [exact IH|].
  apply List.Forall_forall. intros y Hy. apply filter_In in Hy as [Hy _].
  rewrite List.Forall_forall in Hall. now apply Hall.
Qed.

Lemma StronglySorted_weaken {A : Type} (R R' : A -> A -> Prop) (l : list A) :
  (forall x y, R x y -> R' x y) ->
  StronglySorted R l -> StronglySorted R' l.
Proof.
  intros HR. induction 1 as [|x l Hs IH Hall]; constructor; [exact IH|].
  eapply Forall_impl; [exact Hall|]. intros y. apply HR.
Qed.

Lemma canonical_sorted : StronglySorted rank_lt canonical.
Proof.
  unfold canonical, rank_lt.
  repeat (constructor; [|repeat constructor; simpl; lia]). constructor.
Qed.

Lemma rev_canonical_sorted : StronglySorted rank_gt (rev canonical).
Proof.
  unfold canonical, rank_gt. simpl.
  repeat (constructor; [|repeat constructor; simpl; lia]). constructor.
Qed.

Lemma canonical_NoDup : List.NoDup canonical.
Proof.
  unfold canonical.
  repeat (apply List.NoDup_cons_iff; split; [simpl; intuition discriminate|]).
  constructor.
Qed.

Lemma rev_filter_canonical (p : OrderStatus -> bool) :
  rev (List.filter p canonical) = List.filter p (rev canonical).
Proof.
  unfold canonical. simpl.
  destruct (p pending), (p confirmed), (p fulfilled), (p cancelled); reflexivity.
Qed.

Lemma In_canonical (s : OrderStatus) : In s canonical.
Proof. destruct s; simpl; tauto. Qed.

(** The statuses of a list sorted by status, ascending and descending,
    when no status occurs twice. *)
Lemma statuses_sorted_by_status `{JSRuntime} (l : list Order.t) :
  List.NoDup (map Order.status l) ->
  map Order.status (JS.sort (Orders.compareOrders Orders.status Orders.asc) l)
  = List.filter (occurs (map Order.status l)) canonical
  /\ map Order.status (JS.sort (Orders.compareOrders Orders.status Orders.desc) l)
     = rev (List.filter (occurs (map Order.status l)) canonical).
Proof.
  intros Hn.
  assert (Hperm : forall d,
    Permutation (map Order.status (JS.sort (Orders.compareOrders Orders.status d) l))
                (List.filter (occurs (map Order.status l)) canonical)).
  { intros d. apply Permutation.NoDup_Permutation.
    - eapply Permutation_NoDup; [|exact Hn].
      symmetry. apply Permutation_map, sort_Permutation.
    - apply List.NoDup_filter, canonical_NoDup.
    - intros s. rewrite filter_In, occurs_In.
      split.
      + intros Hs. split; [apply In_canonical|].
        eapply Permutation_in; [|exact Hs].
        apply Permutation_map, sort_Permutation.
      + intros [_ Hs]. eapply Permutation_in; [|exact Hs].
        symmetry. apply Permutation_map, sort_Permutation. }
  split.
  - apply (StronglySorted_unique_strong rank_lt).
    + unfold rank_lt. intros; lia.
    + apply (sorted_map_strict
               (fun o => Orders.statusOrder (Order.status o))
               Order.status Orders.statusOrder);
        [reflexivity | apply statusOrder_inj | |].
      * apply sort_sorted. intros; apply compareOrders_status_asc.
      * eapply Permutation_NoDup; [|exact Hn].
        symmetry. apply Permutation_map, sort_Permutation.
    + apply StronglySorted_filter_list, canonical_sorted.
    + apply Hperm.
  - rewrite rev_filter_canonical.
    apply (StronglySorted_unique_strong rank_gt).
    + unfold rank_gt. intros; lia.
    + assert (Hs := sorted_map_strict
               (fun o => - Orders.statusOrder (Order.status o))
               Order.status (fun s => - Orders.statusOrder s)
               (JS.sort (Orders.compareOrders Orders.status Orders.desc) l)).
      eapply StronglySorted_weaken; [|apply Hs].
      * unfold rank_gt. intros; lia.
      * reflexivity.
      * intros s t E. apply statusOrder_inj. lia.
      * apply sort_sorted. intros; apply compareOrders_status_desc.
      * eapply Permutation_NoDup; [|exact Hn].
        symmetry. apply Permutation_map, sort_Permutation.
    + apply StronglySorted_filter_list, rev_canonical_sorted.
    + rewrite <- rev_filter_canonical, <- Permutation_rev. apply Hperm.
Qed.

(** C2. For every list of orders no two of which share a status, and every
    search query, the statuses of the list displayed under the sort key
    [status] are, ascending, those of the displayed orders in the order
    pending, confirmed, fulfilled, cancelled, and, descending, the exact
    reverse; both are the same for every reordering of the fetched list. *)
Theorem status_sort_follows_canonical_order `{JSRuntime}
    (orders : list Order.t) (query : string) :
  List.NoDup (map Order.status orders) ->
  let shown := map Order.status (List.filter (Orders.matchesSearch query) orders) in
  let ascending orders :=
    map Order.status
      (Orders.filteredAndSortedOrders (Some orders) query Orders.status Orders.asc) in
  let descending orders :=
    map Order.status
      (Orders.filteredAndSortedOrders (Some orders) query Orders.status Orders.desc) in
  ascending orders = List.filter (occurs shown) canonical
  /\ descending orders = rev (List.filter (occurs shown) canonical)
  /\ (forall orders', Permutation orders orders' ->
        ascending orders' = ascending orders
        /\ descending orders' = descending orders).
Proof.
  intros Hn shown ascending descending.
  assert (Hsort : forall l, List.NoDup (map Order.status l) ->
    ascending l
    = List.filter (occurs (map Order.status (List.filter (Orders.matchesSearch query) l)))
        canonical
    /\ descending l
       = rev (List.filter
                (occurs (map Order.status (List.filter (Orders.matchesSearch query) l)))
                canonical)).
  { intros l Hl. apply statuses_sorted_by_status. now apply NoDup_map_filter. }
  destruct (Hsort orders Hn) as [Ha Hd].
  split; [exact Ha|]. split; [exact Hd|].
  intros orders' Hp.
  assert (Hn' : List.NoDup (map Order.status orders')).
  { eapply Permutation_NoDup; [|exact Hn]. now apply Permutation_map. }
  destruct (Hsort orders' Hn') as [Ha' Hd'].
  assert (E : List.filter
                (occurs (map Order.status (List.filter (Orders.matchesSearch query) orders')))
                canonical
              = List.filter (occurs shown) canonical).
  { apply filter_ext. intros s. apply eq_true_iff_eq.
    unfold shown. rewrite !occurs_In, !in_map_iff.
    split; intros (o & Ho & Hin); exists o; (split; [exact Ho|]);
      apply filter_In in Hin as [Hin Hm]; apply filter_In; (split; [|exact Hm]).
    - eapply Permutation_in; [symmetry; exact Hp | exact Hin].
    - eapply Permutation_in; [exact Hp | exact Hin]. }
  rewrite Ha', Hd', Ha, Hd, E. split; reflexivity.
Qed.

Lemma status_sort_follows_canonical_order_example :
  map Order.status
    (Orders.filteredAndSortedOrders (H := ExampleRuntime.runtime)
       (Some Examples.fetched) "" Orders.status Orders.asc)
  = [pending; confirmed; cancelled]
  /\ map Order.status
       (Orders.filteredAndSortedOrders (H := ExampleRuntime.runtime)
          (Some Examples.fetched) "" Orders.status Orders.desc)
     = [cancelled; confirmed; pending].
Proof.
  assert (Hn : List.NoDup (map Order.status Examples.fetched)).
  { simpl. repeat (apply List.NoDup_cons_iff; split; [simpl; intuition discriminate|]).
    constructor. }
  destruct (status_sort_follows_canonical_order (H := ExampleRuntime.runtime)
              Examples.fetched "" Hn) as (Ha & Hd & _).
  split; [exact Ha | exact Hd].
Defined.

(* ===================================================================== *)
(** * Orders: selection and bulk update *)
(* ===================================================================== *)

(** C3. In every state, "Select all" leaves the selection either empty or
    equal to the ids of the displayed (search-narrowed) list, which it does
    not change; so every selected id is the id of a fetched order that the
    active search keeps. It is empty exactly when as many ids were selected
    as orders are displayed. *)
Theorem select_all_clears_or_selects_displayed `{JSRuntime} (st : Orders.State) :
  let st' := fst (Orders.step st Orders.SelectAllClicked) in
  let selected := Orders.selectedOrders st' in
  (selected = [] \/ selected = map Order.id (Orders.displayed st))
  /\ selected
     = (if (length (Orders.selectedOrders st) =? length (Orders.displayed st))%nat
        then [] else map Order.id (Orders.displayed st))
  /\ Orders.displayed st' = Orders.displayed st
  /\ snd (Orders.step st Orders.SelectAllClicked) = []
  /\ (forall i, In i selected ->
        exists fetched o,
          Orders.orders st = Some fetched /\ In o fetched /\ Order.id o = i
          /\ matches_query (Orders.searchTerm st) o).
Proof.
  cbn zeta. unfold Orders.step, Orders.handleSelectAll. cbn [fst snd].
  destruct (length (Orders.selectedOrders st) =? length (Orders.displayed st))%nat;
    cbn [Orders.selectedOrders Orders.set_selectedOrders].
  - repeat split; auto. intros i [].
  - repeat split; auto.
    intros i Hi. apply in_map_iff in Hi as (o & Ho & Hin).
    unfold Orders.displayed in Hin.
    destruct (Orders.orders st) as [fetched|] eqn:E; [|destruct Hin].
    apply (Permutation_in _ (displayed_Permutation _ _ _ _)), filter_In in Hin.
    destruct Hin as [Hin Hm]. apply matchesSearch_spec in Hm.
    exists fetched, o. auto.
Qed.

(** C4. With a non-empty selection, a bulk action changes no state cell and
    issues one request, the bulk update of exactly the selected ids to the
    chosen status; when a bulk update succeeds the selection becomes empty,
    and when it fails the state, the selection with it, stays as it was. *)
Theorem bulk_action_one_request_then_clear `{JSRuntime}
    (st : Orders.State) (target : string) (sent : list Z) (e : option string) :
  Orders.selectedOrders st <> [] ->
  Orders.step st (Orders.BulkActionClicked target)
  = (st, [Orders.api_put_bulk_update (Orders.selectedOrders st) target])
  /\ Orders.selectedOrders
       (fst (Orders.step st (Orders.BulkUpdateSettled sent (Resolved tt)))) = []
  /\ fst (Orders.step st (Orders.BulkUpdateSettled sent (Rejected e))) = st.
Proof.
  intros Hsel. unfold Orders.step, Orders.handleBulkAction.
  destruct (Orders.selectedOrders st) as [|i sel] eqn:E; [congruence|].
  repeat split.
Qed.

Lemma bulk_action_one_request_then_clear_example :
  let st := Orders.set_selectedOrders [1; 3] Examples.loaded in
  Orders.step (H := ExampleRuntime.runtime) st (Orders.BulkActionClicked "confirmed")
  = (st, [Orders.api_put_bulk_update [1; 3] "confirmed"])
  /\ Orders.selectedOrders
       (fst (Orders.step (H := ExampleRuntime.runtime) st
               (Orders.BulkUpdateSettled [1; 3] (Resolved tt)))) = []
  /\ fst (Orders.step (H := ExampleRuntime.runtime) st
            (Orders.BulkUpdateSettled [1; 3] (Rejected None))) = st.
Proof.
  intros st.
  apply (bulk_action_one_request_then_clear (H := ExampleRuntime.runtime)
           st "confirmed" [1; 3] None).
  discriminate.
Defined.

(** C10. With the empty selection a bulk action is a no-op: no request and
    no other effect is issued and no state cell changes. *)
Theorem bulk_action_on_empty_selection_is_noop `{JSRuntime}
    (st : Orders.State) (target : string) :
  Orders.selectedOrders st = [] ->
  Orders.step st (Orders.BulkActionClicked target) = (st, []).
Proof.
  intros Hsel. unfold Orders.step, Orders.handleBulkAction.
  now rewrite Hsel.
Qed.

Lemma bulk_action_on_empty_selection_is_noop_example :
  Orders.step (H := ExampleRuntime.runtime) Examples.loaded
    (Orders.BulkActionClicked "cancelled")
  = (Examples.loaded, []).
Proof.
  apply (bulk_action_on_empty_selection_is_noop (H := ExampleRuntime.runtime)
           Examples.loaded "cancelled").
  reflexivity.
Defined.

(* ===================================================================== *)
(** * Orders: statistics *)
(* ===================================================================== *)




(* ===================================================================== *)
(** * Orders: which status updates the page offers *)
(* ===================================================================== *)

(** C7, as stated, fails: with a fulfilled order selected, the bulk actions
    bar offers "Cancel", and the click sends the bulk update of that order
    to cancelled. *)
Lemma bulk_bar_offers_move_out_of_terminal_status :
  ~ offers_only_legal_moves (H := ExampleRuntime.runtime)
      (fulfilled_ticked (H := ExampleRuntime.runtime)).
Proof.
  intros Hlegal.
  specialize (Hlegal
    (Orders.mkPage
       (Orders.stats (Some [Examples.alice; Examples.dora]))
       (Orders.bulkActionsBar (fulfilled_ticked (H := ExampleRuntime.runtime)))
       (Some false)
       (map (Orders.renderRow (fulfilled_ticked (H := ExampleRuntime.runtime)))
            [Examples.alice; Examples.dora])
       false)
    [Examples.alice; Examples.dora]
    Examples.dora
    (Orders.mkButton "Cancel" (Orders.BulkActionClicked "cancelled"))
    (Orders.api_put_bulk_update [4] "cancelled")
    cancelled).
  assert (Hin : In cancelled (legal_targets (Order.status Examples.dora))).
  { apply Hlegal.
    - vm_compute. reflexivity.
    - reflexivity.
    - right. now left.
    - vm_compute. tauto.
    - left. reflexivity.
    - split; [now left | reflexivity]. }
  destruct Hin.
Qed.

(** C7, amended. The actions menu of an order, in the card and in the table
    alike, offers exactly the legal edges out of the status of the order:
    confirmed and cancelled for a pending order, fulfilled and cancelled for
    a confirmed one, nothing for a fulfilled or cancelled one, and a click
    sends that one update of that one order. The bulk actions bar is there
    exactly when the selection is not empty and then offers confirmed,
    fulfilled and cancelled, whatever the statuses of the selected orders. *)
Theorem menu_offers_legal_edges_and_bulk_bar_all_targets `{JSRuntime}
    (st : Orders.State) (o : Order.t) :
  map Orders.onClick (Orders.actionsMenu o)
  = map (fun t => Orders.MenuActionClicked (Order.id o) (status_name t))
        (legal_targets (Order.status o))
  /\ (terminal (Order.status o) = true -> Orders.actionsMenu o = [])
  /\ (forall b, In b (Orders.actionsMenu o) ->
        exists t, In t (legal_targets (Order.status o))
          /\ Orders.step st (Orders.onClick b)
             = (st, [Orders.api_put_order_status (Order.id o) (status_name t)]))
  /\ (forall page row, Orders.render st = Orders.Rendered page ->
        In row (Orders.page_rows page) ->
        Orders.row_menu row = []
        \/ Orders.row_menu row = Orders.actionsMenu (Orders.row_order row))
  /\ (forall page, Orders.render st = Orders.Rendered page ->
        map Orders.onClick (Orders.page_bulk page)
        = match Orders.selectedOrders st with
          | [] => []
          | _ :: _ => map (fun t => Orders.BulkActionClicked (status_name t))
                          [confirmed; fulfilled; cancelled]
          end).
Proof.
  split; [|split; [|split; [|split]]].
  - unfold Orders.actionsMenu. destruct (Order.status o); reflexivity.
  - unfold Orders.actionsMenu. destruct (Order.status o); simpl; congruence.
  - unfold Orders.actionsMenu.
    destruct (Order.status o); simpl; intros b Hb.
    + destruct Hb as [<-|[<-|[]]]; [exists confirmed | exists cancelled]; simpl; auto.
    + destruct Hb as [<-|[<-|[]]]; [exists fulfilled | exists cancelled]; simpl; auto.
    + destruct Hb.
    + destruct Hb.
  - intros page row Hr Hrow. unfold Orders.render in Hr.
    destruct (Orders.isLoading st); [discriminate|].
    destruct (forallb _ _); [|discriminate].
    injection Hr as <-. cbn [Orders.page_rows] in Hrow.
    apply in_map_iff in Hrow as (x & <- & _). unfold Orders.renderRow; simpl.
    destruct (Orders.showActionsMenu st) as [open|]; [|now left].
    destruct (open =? Order.id x); [now right | now left].
  - intros page Hr. unfold Orders.render in Hr.
    destruct (Orders.isLoading st); [discriminate|].
    destruct (forallb _ _); [|discriminate].
    injection Hr as <-. cbn [Orders.page_bulk]. unfold Orders.bulkActionsBar.
    destruct (Orders.selectedOrders st); reflexivity.
Qed.

(* ===================================================================== *)
(** * Forms: the image is uploaded before the entity is submitted *)
(* ===================================================================== *)

Lemma PropertyForm_submitData_same (data : PropertyForm.PropertyFormData) :
  PropertyForm.submitData data (PropertyForm.hero_image_url data) = data.
Proof. destruct data; reflexivity. Qed.

Lemma UpsellForm_submitData_same (data : UpsellForm.UpsellFormData) :
  UpsellForm.submitData data (UpsellForm.image_url data) = data.
Proof. destruct data; reflexivity. Qed.

(** C8. For the property form and the upsell form alike, on every route
    (create or edit) and for every form data: when a file was chosen and
    its upload answers, what happens is the upload, then one create or
    update request whose payload has the answered URL as its image URL;
    when no file was chosen, what happens is one create or update request
    whose payload is the form data, image URL included; in both cases every
    other field of the payload is the one of the form data. (When the upload
    fails, nothing is submitted and an error toast is shown.) *)
Theorem submit_uploads_image_first
    (id : option string) (upload : File -> ApiResult UploadResponse)
    (pdata : PropertyForm.PropertyFormData) (udata : UpsellForm.UpsellFormData) :
  (forall file answer, upload file = Resolved answer ->
     PropertyForm.onSubmit id (Some file) upload pdata
     = [PropertyForm.api_post_upload_image file;
        property_request id (PropertyForm.submitData pdata (url answer))]
     /\ UpsellForm.onSubmit id (Some file) upload udata
        = [UpsellForm.api_post_upload_image file;
           upsell_request id (UpsellForm.submitData udata (url answer))])
  /\ PropertyForm.onSubmit id None upload pdata = [property_request id pdata]
  /\ UpsellForm.onSubmit id None upload udata = [upsell_request id udata]
  /\ (forall imageUrl,
        PropertyForm.hero_image_url (PropertyForm.submitData pdata imageUrl) = imageUrl
        /\ property_fields_pass pdata (PropertyForm.submitData pdata imageUrl)
        /\ UpsellForm.image_url (UpsellForm.submitData udata imageUrl) = imageUrl
        /\ upsell_fields_pass udata (UpsellForm.submitData udata imageUrl))
  /\ (forall file e, upload file = Rejected e ->
        PropertyForm.onSubmit id (Some file) upload pdata
        = [PropertyForm.api_post_upload_image file;
           PropertyForm.toast_error "Failed to upload image"]
        /\ UpsellForm.onSubmit id (Some file) upload udata
           = [UpsellForm.api_post_upload_image file;
              UpsellForm.toast_error "Failed to upload image"]).
Proof.
  split; [|split; [|split; [|split]]].
  - intros file answer Hup.
    unfold PropertyForm.onSubmit, UpsellForm.onSubmit. rewrite Hup. split; reflexivity.
  - unfold PropertyForm.onSubmit. cbn [app].
    now rewrite PropertyForm_submitData_same.
  - unfold UpsellForm.onSubmit. cbn [app].
    now rewrite UpsellForm_submitData_same.
  - intros imageUrl. unfold property_fields_pass, upsell_fields_pass.
    repeat split.
  - intros file e Hup.
    unfold PropertyForm.onSubmit, UpsellForm.onSubmit. rewrite Hup. split; reflexivity.
Qed.

(* ===================================================================== *)
(** * Session: a stored token the backend rejects *)
(* ===================================================================== *)

(** C9. For every stored token (one the provider takes as present, that is,
    not the empty string): when [/me] fails during initialization,
    [initAuth] ends normally, nothing thrown, having asked [/me] once, with
    the token removed from the storage (whose other keys are untouched), the
    in-memory token null, no user and loading over; when [/me] succeeds, the
    returned user is the current user, and token and storage are kept. *)
Theorem init_auth_rejected_token_is_cleared
    (storage : gmap string string) (stored : string)
    (e : option string) (answer : AuthContext.MeResponse) :
  storage !! "token" = Some stored ->
  truthy stored = true ->
  AuthContext.initAuth (Rejected e) (AuthContext.mount storage)
  = AuthContext.Returned
      (AuthContext.mkWorld (AuthContext.mkState None None false)
                           (delete "token" storage))
      [AuthContext.api_get_me]
  /\ delete "token" storage !! "token" = None
  /\ (forall k : string, k <> "token" -> delete "token" storage !! k = storage !! k)
  /\ AuthContext.initAuth (Resolved answer) (AuthContext.mount storage)
     = AuthContext.Returned
         (AuthContext.mkWorld
            (AuthContext.mkState (AuthContext.me_user answer) (Some stored) false)
            storage)
         [AuthContext.api_get_me].
Proof.
  intros Hstored Htruthy.
  unfold AuthContext.initAuth, AuthContext.mount. cbn.
  rewrite Hstored. cbn. rewrite Htruthy.
  split; [reflexivity|]. split; [apply lookup_delete_eq|].
  split; [|reflexivity].
  intros k Hk. now apply lookup_delete_ne.
Qed.

Lemma init_auth_rejected_token_is_cleared_example :
  AuthContext.initAuth (Rejected None)
    (AuthContext.mount (<["token" := "s3cr3t"]> (<["theme" := "dark"]> ∅)))
  = AuthContext.Returned
      (AuthContext.mkWorld (AuthContext.mkState None None false)
         (delete "token" (<["token" := "s3cr3t"]> (<["theme" := "dark"]> ∅))))
      [AuthContext.api_get_me].
Proof.
  apply (init_auth_rejected_token_is_cleared
           (<["token" := "s3cr3t"]> (<["theme" := "dark"]> ∅)) "s3cr3t" None
           (AuthContext.mkMe None)).
  - vm_compute. reflexivity.
  - reflexivity.
Defined.

(* ===================================================================== *)
(** * Analytics: the bars of the revenue chart *)
(* ===================================================================== *)

Lemma Prim2SF_zero : Prim2SF 0%float = S754_zero false.
Proof. reflexivity. Qed.
Lemma Prim2SF_neg_infinity : Prim2SF neg_infinity = S754_infinity true.
Proof. reflexivity. Qed.

Lemma ltb_zero_positive (x : float) :
  (0 <? x)%float = true <-> positive_sf (Prim2SF x).
Proof.
  rewrite FloatAxioms.ltb_spec, Prim2SF_zero. unfold positive_sf, SFltb.
  destruct (Prim2SF x) as [s|s| |s m e]; simpl.
  - split; [discriminate | intros [E|(m & e & E)]; discriminate].
  - destruct s; split; auto; try discriminate. intros [E|(m & e & E)]; discriminate.
  - split; [discriminate | intros [E|(m & e & E)]; discriminate].
  - destruct s; split; eauto; try discriminate. intros [E|(m' & e' & E)]; discriminate.
Qed.

Lemma SFcompare_pos_refl s : positive_sf s -> SFcompare s s = Some Eq.
Proof.
  intros [->|(m & e & ->)]; simpl; [reflexivity|].
  rewrite Z.compare_refl. f_equal. apply Pos.compare_refl.
Qed.

Lemma positive_not_nan x : (0 <? x)%float = true -> is_nan x = false.
Proof.
  intros Hx. apply ltb_zero_positive in Hx.
  unfold is_nan. rewrite FloatAxioms.eqb_spec. unfold SFeqb.
  now rewrite SFcompare_pos_refl.
Qed.

Lemma positive_above_neg_infinity x :
  (0 <? x)%float = true -> (neg_infinity <? x)%float = true.
Proof.
  intros Hx. apply ltb_zero_positive in Hx.
  rewrite FloatAxioms.ltb_spec, Prim2SF_neg_infinity. unfold SFltb.
  destruct Hx as [->|(m & e & ->)]; reflexivity.
Qed.

Lemma SFltb_pos_irrefl s : positive_sf s -> SFltb s s = false.
Proof. intros Hs. unfold SFltb. now rewrite SFcompare_pos_refl. Qed.

Lemma SFltb_pos_trans a b c :
  positive_sf a -> positive_sf b -> positive_sf c ->
  SFltb a b = true -> SFltb b c = true -> SFltb a c = true.
Proof.
  unfold SFltb.
  intros [->|(ma & ea & ->)] [->|(mb & eb & ->)] [->|(mc & ec & ->)]; simpl;
    try discriminate; try reflexivity.
  destruct (ea ?= eb) eqn:Eab; try discriminate;
  destruct (eb ?= ec) eqn:Ebc; try discriminate; intros Hab Hbc.
  - apply Z.compare_eq in Eab, Ebc. subst. rewrite Z.compare_refl.
    destruct (Pos.compare_cont Eq ma mb) eqn:E1; try discriminate.
    destruct (Pos.compare_cont Eq mb mc) eqn:E2; try discriminate.
    change (ma < mb)%positive in E1. change (mb < mc)%positive in E2.
    assert (E3 : (ma < mc)%positive) by lia. unfold Pos.lt, Pos.compare in E3.
    now rewrite E3.
  - apply Z.compare_eq in Eab. subst. now rewrite Ebc.
  - apply Z.compare_eq in Ebc. subst. now rewrite Eab.
  - assert (E : (ea ?= ec) = Lt).
    { change (ea < eb) in Eab. change (eb < ec) in Ebc. change (ea < ec). lia. }
    now rewrite E.
Qed.

Lemma positive_not_neg_zero (x : float) :
  (0 <? x)%float = true ->
  match classify x with NZero => true | _ => false end = false.
Proof.
  intros Hx. apply ltb_zero_positive in Hx.
  rewrite FloatAxioms.classify_spec.
  destruct Hx as [E|(m & e & E)]; rewrite E; [reflexivity|].
  unfold SF64classify, SFclassify.
  destruct (Z.pos (digits2_pos m) =? prec); reflexivity.
Qed.

Lemma max_step_inv (seen : list float) (highest number : float) :
  (forall y, In y seen -> (0 <? y)%float = true) ->
  (0 <? number)%float = true ->
  max_inv seen highest ->
  max_inv (seen ++ [number]) (max_step highest number).
Proof.
  intros Hseen Hn Hinv. right. unfold max_step.
  rewrite (positive_not_nan number Hn), orb_false_r.
  assert (Hirr : (number <? number)%float = false).
  { rewrite FloatAxioms.ltb_spec. apply SFltb_pos_irrefl. now apply ltb_zero_positive. }
  destruct Hinv as [[-> ->] | (Hh & Hin & Hmax)].
  - change (is_nan neg_infinity) with false. cbn iota.
    rewrite (positive_above_neg_infinity number Hn).
    split; [exact Hn|]. split; [now left|].
    intros y [<-|[]]. exact Hirr.
  - rewrite (positive_not_nan highest Hh). cbn iota.
    destruct (highest <? number)%float eqn:Hlt.
    + split; [exact Hn|]. split; [apply in_or_app; right; now left|].
      intros y Hy. apply in_app_or in Hy as [Hy|[<-|[]]]; [|exact Hirr].
      destruct (number <? y)%float eqn:Hny; [|reflexivity].
      assert (Hhy : (highest <? y)%float = true).
      { rewrite FloatAxioms.ltb_spec. rewrite FloatAxioms.ltb_spec in Hlt, Hny.
        apply (SFltb_pos_trans _ (Prim2SF number)); auto;
          apply ltb_zero_positive; auto. }
      rewrite (Hmax y Hy) in Hhy. discriminate.
    + rewrite (positive_not_neg_zero highest Hh), andb_false_r.
      split; [exact Hh|]. split; [apply in_or_app; now left|].
      intros y Hy. apply in_app_or in Hy as [Hy|[<-|[]]]; [now apply Hmax | exact Hlt].
Qed.

Lemma fold_max_step_inv (xs seen : list float) (highest : float) :
  (forall y, In y seen -> (0 <? y)%float = true) ->
  (forall y, In y xs -> (0 <? y)%float = true) ->
  max_inv seen highest ->
  max_inv (seen ++ xs) (fold_left max_step xs highest).
Proof.
  revert seen highest. induction xs as [|x xs IH]; intros seen highest Hseen Hxs Hinv.
  - now rewrite app_nil_r.
  - simpl. replace (seen ++ x :: xs) with ((seen ++ [x]) ++ xs)
      by now rewrite <- app_assoc.
    apply IH.
    + intros y Hy. apply in_app_or in Hy as [Hy|[<-|[]]]; [now apply Hseen|].
      apply Hxs. now left.
    + intros y Hy. apply Hxs. now right.
    + apply max_step_inv; auto. apply Hxs. now left.
Qed.

(** [Math.max] of positive numbers, at least one: it is one of them, it is
    positive, and none of them is above it. *)
Lemma Math_max_positive (xs : list float) :
  xs <> [] ->
  (forall y, In y xs -> (0 <? y)%float = true) ->
  (0 <? Math_max xs)%float = true
  /\ In (Math_max xs) xs
  /\ forall y, In y xs -> (Math_max xs <? y)%float = false.
Proof.
  intros Hne Hxs.
  assert (Hinv : max_inv ([] ++ xs) (fold_left max_step xs neg_infinity)).
  { apply fold_max_step_inv; [intros y [] | exact Hxs | left; split; reflexivity]. }
  simpl in Hinv. destruct Hinv as [[E _]|Hinv]; [contradiction | exact Hinv].
Qed.

Lemma slice_last_app {A : Type} (n : nat) (l : list A) :
  exists dropped, l = dropped ++ slice_last n l.
Proof.
  exists (firstn (length l - n) l). unfold slice_last.
  symmetry. apply firstn_skipn.
Qed.

Lemma slice_last_length {A : Type} (n : nat) (l : list A) :
  length (slice_last n l) = Nat.min n (length l).
Proof. unfold slice_last. rewrite length_skipn. lia. Qed.

Lemma slice_last_In {A : Type} (n : nat) (l : list A) (x : A) :
  In x (slice_last n l) -> In x l.
Proof.
  intros Hx. destruct (slice_last_app n l) as [dropped E].
  rewrite E. apply in_or_app. now right.
Qed.

Lemma StronglySorted_weaken_In {A : Type} (R R' : A -> A -> Prop) (l : list A) :
  (forall x y, In x l -> In y l -> R x y -> R' x y) ->
  StronglySorted R l -> StronglySorted R' l.
Proof.
  intros HR Hs. induction Hs as [|x l Hs IH Hall]; constructor.
  - apply IH. intros a b Ha Hb. apply HR; now right.
  - apply List.Forall_forall. intros y Hy.
    rewrite List.Forall_forall in Hall.
    apply HR; [now left | now right | now apply Hall].
Qed.

Lemma recent_In `{JSRuntime} (revenueData : list Analytics.RevenueData)
    (item : Analytics.RevenueData) :
  In item (Analytics.recentRevenueData (Some revenueData)) ->
  In item revenueData /\ positive_total item = true.
Proof.
  unfold Analytics.recentRevenueData. intros Hin.
  apply sort_In, slice_last_In, filter_In in Hin. exact Hin.
Qed.

Lemma StronglySorted_before {A : Type} (R : A -> A -> Prop) (l : list A) (a b : A) :
  StronglySorted R l -> before a b l -> R a b.
Proof.
  intros Hs (l1 & l2 & l3 & ->). induction l1 as [|x l1 IH].
  - inversion Hs as [|? ? _ Hall]; subst.
    rewrite List.Forall_forall in Hall. apply Hall.
    apply in_or_app. right. now left.
  - apply IH. now inversion Hs.
Qed.

Lemma recent_chronological `{JSRuntime} (revenueData : list Analytics.RevenueData) :
  (forall item, In item (Analytics.recentRevenueData (Some revenueData)) ->
     Date_getTime (Analytics.date item) <> None) ->
  StronglySorted chronological (Analytics.recentRevenueData (Some revenueData)).
Proof.
  unfold Analytics.recentRevenueData. intros Hvalid.
  set (l := slice_last 5 _) in *.
  assert (Hl : forall item, In item l -> Date_getTime (Analytics.date item) <> None).
  { intros item Hin. apply Hvalid. now apply sort_In. }
  set (key := fun item : Analytics.RevenueData =>
                match Date_getTime (Analytics.date item) with
                | Some t => t
                | None => 0
                end).
  apply (StronglySorted_weaken_In (key_le key)).
  - intros a b Ha Hb. apply sort_In in Ha, Hb.
    apply Hl in Ha, Hb. unfold key_le, key, chronological.
    destruct (Date_getTime (Analytics.date a)); [|contradiction].
    destruct (Date_getTime (Analytics.date b)); [|contradiction]. auto.
  - apply sort_sorted. intros a b Ha Hb.
    apply Hl in Ha, Hb. unfold Analytics.byDate, key.
    destruct (Date_getTime (Analytics.date a)); [|contradiction].
    destruct (Date_getTime (Analytics.date b)); [|contradiction].
    simpl. unfold sign_int. now rewrite <- Z.compare_sub.
Qed.

(** C6, as stated, fails: with an unreadable date among the kept entries
    the comparator of the sort answers [NaN] for every pair it is in, and
    the chart shows the fifth of March before the first. *)
Lemma unreadable_date_breaks_chart_order :
  ~ chart_in_date_order (H := ExampleRuntime.runtime) MoreExamples.series.
Proof.
  intros Horder.
  specialize (Horder (Analytics.mkRevenueData "2024-03-05" 10)
                     (Analytics.mkRevenueData "2024-03-01" 30)
                     20240305 20240301).
  assert (Hle : 20240305 <= 20240301); [|lia].
  apply Horder; [|reflexivity|reflexivity].
  exists [], [Analytics.mkRevenueData "soon" 20], []. reflexivity.
Qed.

(** C6, amended. For every revenue series: the data of the chart are the
    last five (all, when there are fewer) of the entries with a strictly
    positive total, in some order, which is the order of their dates when
    the dates of these kept entries are valid; so there are at most five,
    each with a strictly positive total; and, when there is one at least,
    the chart has one bar per entry, of height [total / max * 100], [max]
    being [Math.max] of the totals of these entries: one of them, positive,
    and below none. *)
Theorem chart_shows_last_five_positive_days `{JSRuntime}
    (revenueData : list Analytics.RevenueData) :
  let positive := List.filter positive_total revenueData in
  let recent := Analytics.recentRevenueData (Some revenueData) in
  let max := Math_max (map Analytics.total recent) in
  Permutation recent (slice_last 5 positive)
  /\ (exists earlier, positive = earlier ++ slice_last 5 positive)
  /\ length recent = Nat.min 5 (length positive)
  /\ ((forall item, In item recent ->
         Date_getTime (Analytics.date item) <> None) ->
      StronglySorted chronological recent /\ chart_in_date_order revenueData)
  /\ (length recent <= 5)%nat
  /\ (forall item, In item recent -> (0 <? Analytics.total item)%float = true)
  /\ Analytics.chart false (Some revenueData)
     = match recent with
       | [] => Analytics.NoData
       | _ :: _ =>
           Analytics.Bars
             (map (fun item =>
                     Analytics.mkBar item (Analytics.total item / max * 100)%float)
                  recent)
       end
  /\ (recent <> [] ->
      In max (map Analytics.total recent)
      /\ (0 <? max)%float = true
      /\ forall item, In item recent -> (max <? Analytics.total item)%float = false).
Proof.
  intros positive recent max.
  assert (Hperm : Permutation recent (slice_last 5 positive))
    by apply sort_Permutation.
  assert (Hlen : length recent = Nat.min 5 (length positive)).
  { rewrite (Permutation_length Hperm). apply slice_last_length. }
  assert (Hpos : forall item, In item recent ->
                   (0 <? Analytics.total item)%float = true).
  { intros item Hin. now apply recent_In in Hin. }
  assert (Hmax : recent <> [] ->
    In max (map Analytics.total recent)
    /\ (0 <? max)%float = true
    /\ forall item, In item recent -> (max <? Analytics.total item)%float = false).
  { intros Hne.
    destruct (Math_max_positive (map Analytics.total recent)) as (Hm & Hin & Hub).
    - destruct recent; [contradiction | discriminate].
    - intros y Hy. apply in_map_iff in Hy as (item & <- & Hitem). now apply Hpos.
    - split; [exact Hin|]. split; [exact Hm|].
      intros item Hitem. apply Hub. now apply in_map. }
  split; [exact Hperm|]. split; [apply slice_last_app|]. split; [exact Hlen|].
  split.
  { intros Hvalid. assert (Hs := recent_chronological revenueData Hvalid).
    split; [exact Hs|]. intros a b ta tb Hab Ha Hb.
    assert (Hc := StronglySorted_before _ _ a b Hs Hab).
    unfold chronological in Hc. now rewrite Ha, Hb in Hc. }
  split; [lia|]. split; [exact Hpos|].
  split; [|exact Hmax].
  unfold Analytics.chart. fold recent.
  destruct recent as [|item rest] eqn:E; [reflexivity|].
  change (0 <? length (item :: rest))%nat with true. cbn iota.
  f_equal. apply map_ext. intros a.
  unfold Analytics.height, Analytics.recentMaxRevenue.
  change (0 <? length (item :: rest))%nat with true. cbn iota.
  fold max. destruct Hmax as (_ & Hm & _); [discriminate|]. now rewrite Hm.
Qed.

(** Eight days, six of them with revenue: the first of the six is dropped,
    the other five are shown by date, the best day at the full height. *)
Example chart_of_eight_days :
  Analytics.chart (H := ExampleRuntime.runtime) false
    (Some [Analytics.mkRevenueData "2024-03-01" 10;
           Analytics.mkRevenueData "2024-03-02" 0;
           Analytics.mkRevenueData "2024-03-03" 25;
           Analytics.mkRevenueData "2024-03-04" 200;
           Analytics.mkRevenueData "2024-03-05" 0;
           Analytics.mkRevenueData "2024-03-06" 100;
           Analytics.mkRevenueData "2024-03-08" 150;
           Analytics.mkRevenueData "2024-03-07" 50])
  = Analytics.Bars
      [Analytics.mkBar (Analytics.mkRevenueData "2024-03-03" 25) 12.5;
       Analytics.mkBar (Analytics.mkRevenueData "2024-03-04" 200) 100;
       Analytics.mkBar (Analytics.mkRevenueData "2024-03-06" 100) 50;
       Analytics.mkBar (Analytics.mkRevenueData "2024-03-07" 50) 25;
       Analytics.mkBar (Analytics.mkRevenueData "2024-03-08" 150) 75].
Proof. vm_compute. reflexivity. Qed.

(* ===================================================================== *)
(** * Orders: more on selection, sorting, statistics and menus *)
(* ===================================================================== *)

Lemma array_includes_In (l : list Z) (x : Z) :
  Orders.array_includes l x = true <-> In x l.
Proof.
  unfold Orders.array_includes. rewrite existsb_exists. split.
  - intros (y & Hy & E). apply Z.eqb_eq in E. now subst.
  - intros Hx. exists x. split; [exact Hx | apply Z.eqb_refl].
Qed.

Lemma array_includes_without (l : list Z) (orderId j : Z) :
  Orders.array_includes (List.filter (fun id => negb (id =? orderId)) l) j
  = negb (j =? orderId) && Orders.array_includes l j.
Proof.
  apply eq_true_iff_eq.
  rewrite andb_true_iff, negb_true_iff, !array_includes_In, filter_In,
    negb_true_iff, !Z.eqb_neq.
  tauto.
Qed.

(** X1. Ticking the checkbox of an order flips whether its id is selected
    and leaves every other id as it was, selected or not. *)
Theorem select_order_flips_that_id_only (st : Orders.State) (orderId j : Z) :
  Orders.array_includes
    (Orders.selectedOrders (Orders.handleSelectOrder orderId st)) j
  = if j =? orderId
    then negb (Orders.array_includes (Orders.selectedOrders st) orderId)
    else Orders.array_includes (Orders.selectedOrders st) j.
Proof.
  unfold Orders.handleSelectOrder. cbn [Orders.selectedOrders Orders.set_selectedOrders].
  destruct (Orders.array_includes (Orders.selectedOrders st) orderId) eqn:E.
  - rewrite array_includes_without.
    destruct (j =? orderId); reflexivity.
  - unfold Orders.array_includes in *. rewrite existsb_app. cbn [existsb].
    destruct (j =? orderId) eqn:Ej.
    + apply Z.eqb_eq in Ej. subst j. rewrite E. reflexivity.
    + now rewrite !orb_false_r.
Qed.

Lemma step_keeps_orders `{JSRuntime} (st : Orders.State) (ev : Orders.Event) :
  Orders.orders (fst (Orders.step st ev)) = Orders.orders st.
Proof.
  destruct ev as [v|v|v| |i|i t|i| |t|[r|e]|sent [r|e]]; cbn; try reflexivity.
  - unfold Orders.handleSelectAll.
    destruct (_ =? _)%nat; reflexivity.
  - unfold Orders.handleBulkAction.
    destruct (_ =? _)%nat; reflexivity.
Qed.

Lemma displayed_ids_NoDup `{JSRuntime} (st : Orders.State) :
  (forall fetched, Orders.orders st = Some fetched ->
     List.NoDup (map Order.id fetched)) ->
  List.NoDup (map Order.id (Orders.displayed st)).
Proof.
  intros Hids. unfold Orders.displayed.
  destruct (Orders.orders st) as [fetched|]; [|constructor].
  eapply Permutation_NoDup.
  - symmetry. apply Permutation_map, displayed_Permutation.
  - apply NoDup_map_filter. now apply Hids.
Qed.

Lemma step_keeps_selection_duplicate_free `{JSRuntime}
    (st : Orders.State) (ev : Orders.Event) :
  List.NoDup (Orders.selectedOrders st) ->
  (forall fetched, Orders.orders st = Some fetched ->
     List.NoDup (map Order.id fetched)) ->
  List.NoDup (Orders.selectedOrders (fst (Orders.step st ev))).
Proof.
  intros Hsel Hids.
  destruct ev as [v|v|v| |i|i t|i| |t|[r|e]|sent [r|e]]; cbn; try exact Hsel.
  - destruct (Orders.array_includes (Orders.selectedOrders st) i) eqn:E.
    + now apply List.NoDup_filter.
    + apply (Permutation_NoDup (Permutation_cons_append _ i)).
      constructor; [|exact Hsel].
      intros Hi. apply array_includes_In in Hi. congruence.
  - unfold Orders.handleSelectAll.
    destruct (_ =? _)%nat; cbn; [constructor | now apply displayed_ids_NoDup].
  - unfold Orders.handleBulkAction.
    destruct (_ =? _)%nat; exact Hsel.
  - constructor.
Qed.

(** X2. When the fetched orders have pairwise distinct ids, a selection
    without duplicates stays without duplicates through every sequence of
    events of the page. *)
Theorem selection_stays_duplicate_free `{JSRuntime}
    (st : Orders.State) (events : list Orders.Event) :
  List.NoDup (Orders.selectedOrders st) ->
  (forall fetched, Orders.orders st = Some fetched ->
     List.NoDup (map Order.id fetched)) ->
  List.NoDup (Orders.selectedOrders (run st events)).
Proof.
  unfold run. revert st. induction events as [|ev events IH]; intros st Hsel Hids.
  - exact Hsel.
  - cbn [fold_left]. apply IH.
    + now apply step_keeps_selection_duplicate_free.
    + now rewrite step_keeps_orders.
Qed.

Lemma selection_stays_duplicate_free_example :
  List.NoDup
    (Orders.selectedOrders
       (run (H := ExampleRuntime.runtime) Examples.loaded
          [Orders.SelectOrderClicked 2; Orders.SelectAllClicked;
           Orders.SelectOrderClicked 2; Orders.SearchTyped "chef";
           Orders.SelectOrderClicked 2; Orders.SelectOrderClicked 3])).
Proof.
  apply (selection_stays_duplicate_free (H := ExampleRuntime.runtime)).
  - constructor.
  - intros fetched [= <-]. cbn.
    repeat (apply List.NoDup_cons_iff; split; [cbn; lia|]). constructor.
Defined.

(** X3. "Select all" is a toggle: clicked twice in a row, it leaves every
    displayed order selected if as many ids were selected before as orders
    are displayed, and nothing selected otherwise. *)
Theorem select_all_twice `{JSRuntime} (st : Orders.State) :
  Orders.selectedOrders
    (run st [Orders.SelectAllClicked; Orders.SelectAllClicked])
  = if (length (Orders.selectedOrders st) =? length (Orders.displayed st))%nat
    then map Order.id (Orders.displayed st)
    else [].
Proof.
  unfold run. cbn [fold_left Orders.step fst].
  unfold Orders.handleSelectAll at 2.
  destruct (length (Orders.selectedOrders st) =? length (Orders.displayed st))%nat.
  - unfold Orders.handleSelectAll. cbn.
    change (Orders.displayed (Orders.set_selectedOrders [] st))
      with (Orders.displayed st).
    destruct (Orders.displayed st); reflexivity.
  - unfold Orders.handleSelectAll. cbn.
    change (Orders.displayed
              (Orders.set_selectedOrders (map Order.id (Orders.displayed st)) st))
      with (Orders.displayed st).
    now rewrite length_map, Nat.eqb_refl.
Qed.

(** X4. In the table, when the selection has no duplicates and holds ids of
    displayed orders only, the checkbox of the header is checked only if
    the checkbox of every row is. *)
Theorem header_checked_means_every_row_checked `{JSRuntime}
    (st : Orders.State) (page : Orders.Page) (row : Orders.Row) :
  Orders.render st = Orders.Rendered page ->
  Orders.page_selectAll page = Some true ->
  List.NoDup (Orders.selectedOrders st) ->
  (forall i, In i (Orders.selectedOrders st) ->
     In i (map Order.id (Orders.displayed st))) ->
  In row (Orders.page_rows page) ->
  Orders.row_checked row = Some true.
Proof.
  intros Hr Hall Hnd Hincl Hrow. unfold Orders.render in Hr.
  destruct (Orders.isLoading st); [discriminate|].
  destruct (forallb _ _); [|discriminate]. injection Hr as <-.
  cbn in Hall, Hrow.
  apply in_map_iff in Hrow as (o & <- & Ho). unfold Orders.renderRow; cbn.
  destruct (Orders.viewMode st); [discriminate|].
  injection Hall as Hall. apply andb_true_iff in Hall as [Hlen _].
  apply Nat.eqb_eq in Hlen. f_equal. apply array_includes_In.
  assert (Hback : incl (map Order.id (Orders.displayed st))
                       (Orders.selectedOrders st)).
  { apply NoDup_length_incl; [exact Hnd | rewrite length_map; lia | exact Hincl]. }
  apply Hback. now apply in_map.
Qed.

Lemma header_checked_means_every_row_checked_example :
  Orders.row_checked
    (Orders.renderRow MoreExamples.all_ticked Examples.carla) = Some true.
Proof.
  apply (header_checked_means_every_row_checked (H := ExampleRuntime.runtime)
           MoreExamples.all_ticked
           (Orders.mkPage
              (Orders.stats (Some Examples.fetched))
              (Orders.bulkActionsBar MoreExamples.all_ticked)
              (Some true)
              (map (Orders.renderRow MoreExamples.all_ticked)
                   [Examples.bob; Examples.carla; Examples.alice])
              false)).
  - reflexivity.
  - reflexivity.
  - cbn. repeat (apply List.NoDup_cons_iff; split; [cbn; lia|]). constructor.
  - intros i. vm_compute. tauto.
  - vm_compute. tauto.
Defined.

(** X5. The four per-status counts of the statistics add up to the total:
    every fetched order is counted under exactly one status. *)
Theorem status_counts_add_up (orders : option (list Order.t)) :
  (Stats.pending (Orders.stats orders) + Stats.confirmed (Orders.stats orders)
   + Stats.fulfilled (Orders.stats orders) + Stats.cancelled (Orders.stats orders)
   = Stats.total (Orders.stats orders))%nat.
Proof.
  destruct orders as [l|]; [|reflexivity]. cbn. unfold Orders.countStatus.
  induction l as [|o l IH]; [reflexivity|].
  cbn. destruct (Order.status o); cbn; lia.
Qed.

Lemma filter_all {A : Type} (p : A -> bool) (l : list A) :
  (forall x, In x l -> p x = true) -> List.filter p l = l.
Proof.
  induction l as [|x l IH]; intros Hp; [reflexivity|].
  cbn. rewrite (Hp x (or_introl eq_refl)). f_equal.
  apply IH. intros y Hy. apply Hp. now right.
Qed.

Lemma includes_empty (s : string) : includes s "" = true.
Proof. destruct s; reflexivity. Qed.

(** X6. On a runtime that lower-cases the empty string to itself, the empty
    query hides nothing: the displayed list is a reordering of the whole
    fetched list, under every sort key and direction. *)
Theorem empty_query_shows_every_order `{JSRuntime}
    (orders : list Order.t) (sortBy : Orders.SortBy) (sortOrder : Orders.SortOrder) :
  toLowerCase "" = ""%string ->
  Permutation (Orders.filteredAndSortedOrders (Some orders) "" sortBy sortOrder)
              orders.
Proof.
  intros Hlow. rewrite displayed_Permutation.
  rewrite filter_all; [reflexivity|].
  intros o _. unfold Orders.matchesSearch. now rewrite Hlow, includes_empty.
Qed.

Lemma empty_query_shows_every_order_example :
  Permutation
    (Orders.filteredAndSortedOrders (H := ExampleRuntime.runtime)
       (Some Examples.fetched) "" Orders.amount Orders.asc)
    Examples.fetched.
Proof.
  apply (empty_query_shows_every_order (H := ExampleRuntime.runtime)).
  reflexivity.
Defined.

Lemma compareOrders_date_asc `{JSRuntime} (a b : Order.t) (ta tb : Z) :
  Date_getTime (Order.created_at a) = Some ta ->
  Date_getTime (Order.created_at b) = Some tb ->
  Orders.compareOrders Orders.date Orders.asc a b = (ta ?= tb)
  /\ Orders.compareOrders Orders.date Orders.desc a b = (- ta ?= - tb).
Proof.
  intros Ha Hb. unfold Orders.compareOrders. rewrite Ha, Hb. cbn.
  unfold sign_int. rewrite <- !Z.compare_sub, Z.compare_opp. split; reflexivity.
Qed.

(** X7. When the creation date of every fetched order is valid, the list
    displayed under the sort key [date] is in the order of the dates:
    oldest first when ascending, newest first when descending. *)
Theorem date_sort_is_chronological `{JSRuntime}
    (orders : list Order.t) (query : string) :
  (forall o, In o orders -> Date_getTime (Order.created_at o) <> None) ->
  StronglySorted created_le
    (Orders.filteredAndSortedOrders (Some orders) query Orders.date Orders.asc)
  /\ StronglySorted (fun a b => created_le b a)
       (Orders.filteredAndSortedOrders (Some orders) query Orders.date Orders.desc).
Proof.
  intros Hvalid. unfold Orders.filteredAndSortedOrders.
  set (l := List.filter _ orders).
  assert (Hl : forall o, In o l -> Date_getTime (Order.created_at o) <> None).
  { intros o Ho. apply Hvalid. apply filter_In in Ho. tauto. }
  set (time := fun o : Order.t =>
                 match Date_getTime (Order.created_at o) with
                 | Some t => t
                 | None => 0
                 end).
  split.
  - apply (StronglySorted_weaken_In (key_le time)).
    + intros a b Ha Hb. apply sort_In in Ha, Hb. apply Hl in Ha, Hb.
      unfold key_le, time, created_le.
      destruct (Date_getTime (Order.created_at a)); [|contradiction].
      destruct (Date_getTime (Order.created_at b)); [|contradiction]. auto.
    + apply sort_sorted. intros a b Ha Hb. apply Hl in Ha, Hb. unfold time.
      destruct (Date_getTime (Order.created_at a)) as [ta|] eqn:Ea; [|contradiction].
      destruct (Date_getTime (Order.created_at b)) as [tb|] eqn:Eb; [|contradiction].
      apply (compareOrders_date_asc a b ta tb Ea Eb).
  - apply (StronglySorted_weaken_In (key_le (fun o => - time o))).
    + intros a b Ha Hb. apply sort_In in Ha, Hb. apply Hl in Ha, Hb.
      unfold key_le, time, created_le.
      destruct (Date_getTime (Order.created_at a)); [|contradiction].
      destruct (Date_getTime (Order.created_at b)); [|contradiction]. lia.
    + apply sort_sorted. intros a b Ha Hb. apply Hl in Ha, Hb. unfold time.
      destruct (Date_getTime (Order.created_at a)) as [ta|] eqn:Ea; [|contradiction].
      destruct (Date_getTime (Order.created_at b)) as [tb|] eqn:Eb; [|contradiction].
      apply (compareOrders_date_asc a b ta tb Ea Eb).
Qed.

Lemma date_sort_is_chronological_example :
  StronglySorted (created_le (H := ExampleRuntime.runtime))
    (Orders.filteredAndSortedOrders (H := ExampleRuntime.runtime)
       (Some Examples.fetched) "" Orders.date Orders.asc).
Proof.
  apply (date_sort_is_chronological (H := ExampleRuntime.runtime)).
  intros o [<-|[<-|[<-|[]]]]; discriminate.
Defined.

(** X8. Choosing another sort key, flipping the direction or switching
    between cards and table never changes which orders are displayed: the
    list is reordered at most, and the view mode does not even reorder. *)
Theorem sorting_keeps_the_displayed_orders `{JSRuntime}
    (st : Orders.State) (key : Orders.SortBy) (mode : Orders.ViewMode) :
  Permutation (Orders.displayed (fst (Orders.step st (Orders.SortByChosen key))))
              (Orders.displayed st)
  /\ Permutation (Orders.displayed (fst (Orders.step st Orders.SortOrderClicked)))
                 (Orders.displayed st)
  /\ Orders.displayed (fst (Orders.step st (Orders.ViewModeClicked mode)))
     = Orders.displayed st.
Proof.
  unfold Orders.displayed. cbn -[Orders.filteredAndSortedOrders].
  destruct (Orders.orders st) as [fetched|].
  - repeat split; rewrite !displayed_Permutation; reflexivity.
  - repeat split; reflexivity.
Qed.

(** X9. A row shows the buttons of an actions menu only if it is the row of
    the order the menu was opened on. *)
Theorem only_the_opened_menu_is_shown `{JSRuntime}
    (st : Orders.State) (page : Orders.Page) (row : Orders.Row) :
  Orders.render st = Orders.Rendered page ->
  In row (Orders.page_rows page) ->
  Orders.row_menu row <> [] ->
  Orders.showActionsMenu st = Some (Order.id (Orders.row_order row)).
Proof.
  intros Hr Hrow Hmenu. unfold Orders.render in Hr.
  destruct (Orders.isLoading st); [discriminate|].
  destruct (forallb _ _); [|discriminate]. injection Hr as <-.
  cbn in Hrow. apply in_map_iff in Hrow as (o & <- & _).
  unfold Orders.renderRow in *. cbn in *.
  destruct (Orders.showActionsMenu st) as [open|]; [|contradiction].
  destruct (open =? Order.id o) eqn:E; [|contradiction].
  apply Z.eqb_eq in E. now subst.
Qed.

Lemma only_the_opened_menu_is_shown_example :
  Orders.showActionsMenu MoreExamples.menu_open
  = Some (Order.id (Orders.row_order
                      (Orders.renderRow MoreExamples.menu_open Examples.alice))).
Proof.
  apply (only_the_opened_menu_is_shown (H := ExampleRuntime.runtime)
           MoreExamples.menu_open
           (Orders.mkPage
              (Orders.stats (Some Examples.fetched))
              []
              None
              (map (Orders.renderRow MoreExamples.menu_open)
                   [Examples.bob; Examples.carla; Examples.alice])
              false)).
  - reflexivity.
  - vm_compute. tauto.
  - discriminate.
Defined.

(** X10. When a status update succeeds, the orders are refetched, one
    success toast is shown and the actions menu is closed: no row of the
    page shows menu buttons any more; the selection is untouched. When it
    fails, nothing changes but an error toast. *)
Theorem status_update_settles `{JSRuntime}
    (st : Orders.State) (e : option string) :
  let after := Orders.step st (Orders.UpdateStatusSettled (Resolved tt)) in
  snd after = [Orders.invalidateQueries "orders";
               Orders.toast_success "Order status updated"]
  /\ Orders.selectedOrders (fst after) = Orders.selectedOrders st
  /\ Orders.Rendering_map
       (fun page => concat (map Orders.row_menu (Orders.page_rows page)))
       (Orders.render (fst after))
     = Orders.Rendering_map (fun _ => []) (Orders.render st)
  /\ Orders.step st (Orders.UpdateStatusSettled (Rejected e))
     = (st, [Orders.toast_error "Failed to update order status"]).
Proof.
  cbn. repeat split. unfold Orders.render. cbn.
  destruct (Orders.isLoading st); [reflexivity|].
  change (Orders.displayed (Orders.set_showActionsMenu None st))
    with (Orders.displayed st).
  destruct (forallb _ (Orders.displayed st)); [|reflexivity]. cbn. f_equal.
  induction (Orders.displayed st) as [|o l IH]; [reflexivity|]. cbn. exact IH.
Qed.

(* ===================================================================== *)
(** * Analytics: the period total and the export *)
(* ===================================================================== *)

Lemma or_float_not_nan (x d : float) :
  is_nan d = false -> is_nan (or_float x d) = false.
Proof.
  intros Hd. unfold or_float.
  destruct (x =? 0)%float; cbn; [exact Hd|].
  destruct (is_nan x) eqn:E; [exact Hd | exact E].
Qed.

(** X11. The period total is never [NaN], whatever totals the backend
    sends, and it is zero while the series is not loaded and for the empty
    series. *)
Theorem total_revenue_is_a_number
    (revenueData : option (list Analytics.RevenueData)) :
  is_nan (Analytics.totalRevenue revenueData) = false
  /\ Analytics.totalRevenue None = 0%float
  /\ Analytics.totalRevenue (Some []) = 0%float.
Proof.
  split; [|split; reflexivity].
  destruct revenueData as [l|]; [|reflexivity].
  apply or_float_not_nan. reflexivity.
Qed.

(** X12. However the export request settles, the export button is enabled
    again, the period is kept and exactly one toast is shown: the success
    one if the server answered ok with a readable body, the error one
    otherwise. A file is downloaded only in the first case, and then only
    if the browser knows the [download] attribute: the body as it came,
    under the name [accounting_data_<day>_<period>days.csv]. *)
Theorem export_settles (API_BASE_URL today : string)
    (parseInt : string -> option Z) (supportsDownload : bool)
    (token : option string) (answer : Analytics.FetchAnswer)
    (s : Analytics.ExportState) :
  let after :=
    Analytics.handleExportCSV API_BASE_URL today parseInt supportsDownload
      token answer s in
  Analytics.isExporting (Analytics.handleExportCSV_start s) = true
  /\ Analytics.isExporting (fst after) = false
  /\ Analytics.period (fst after) = Analytics.period s
  /\ toasts (snd after)
     = match exported answer with
       | Some _ => [(true, "Accounting data exported successfully!"%string)]
       | None =>
           [(false, "Failed to export accounting data. Please try again."%string)]
       end
  /\ downloads (snd after)
     = match exported answer with
       | Some csvData =>
           if supportsDownload
           then [(csvData,
                  "accounting_data_" +:+ today +:+ "_"
                    +:+ number_to_string (parseInt (Analytics.period s))
                    +:+ "days.csv")]
           else []
       | None => []
       end.
Proof.
  cbn zeta. split; [reflexivity|].
  unfold Analytics.handleExportCSV, Analytics.exportAccountingData,
    Analytics.downloadCSV, exported.
  destruct answer as [[|] status statusText [csvData|e]|message];
    destruct supportsDownload; cbn; repeat split.
Qed.

(* ===================================================================== *)
(** * Forms: tags, the image picker and the loaded entity *)
(* ===================================================================== *)

Lemma existsb_eqb_In (t : string) (l : list string) :
  existsb (String.eqb t) l = true <-> In t l.
Proof.
  rewrite existsb_exists. split.
  - intros (x & Hx & E). apply String.eqb_eq in E. now subst.
  - intros Ht. exists t. split; [exact Ht | apply String.eqb_refl].
Qed.

Lemma tag_step_ok (trim : string -> string) (s : PropertyForm.TagState)
    (ev : PropertyForm.TagEvent) :
  tags_ok s -> tags_ok (PropertyForm.tag_step trim s ev).
Proof.
  unfold tags_ok. destruct s as [[l|] input]; destruct ev as [text| |tag]; cbn;
    try tauto.
  - intros [Hnd Hne]. unfold PropertyForm.addTag. cbn.
    destruct (truthy (trim input)) eqn:Et; cbn; [|tauto].
    destruct (existsb (String.eqb (trim input)) l) eqn:Ein; cbn; [tauto|].
    split.
    + apply (Permutation_NoDup (Permutation_cons_append _ _)).
      constructor; [|exact Hnd].
      intros Hin. apply existsb_eqb_In in Hin. congruence.
    + intros t Ht. apply in_app_or in Ht as [Ht|[<-|[]]]; auto.
  - intros [Hnd Hne]. split; [now apply List.NoDup_filter|].
    intros t Ht. apply filter_In in Ht. apply Hne. tauto.
  - intros _. unfold PropertyForm.addTag. cbn.
    destruct (truthy (trim input)) eqn:Et; cbn; [|exact I].
    split; [repeat constructor; intros [] | intros t [<-|[]]; exact Et].
  - intros _. split; [constructor | intros t []].
Qed.

(** X13. Through every sequence of typing, adding and removing, the tags of
    the property form stay pairwise distinct and non-empty once they are:
    [addTag] adds the trimmed input only if it is not empty and not there
    yet. *)
Theorem tags_stay_distinct_and_nonempty (trim : string -> string)
    (s : PropertyForm.TagState) (events : list PropertyForm.TagEvent) :
  tags_ok s ->
  tags_ok (fold_left (PropertyForm.tag_step trim) events s).
Proof.
  revert s. induction events as [|ev events IH]; intros s Hs; [exact Hs|].
  cbn. apply IH. now apply tag_step_ok.
Qed.

Lemma tags_stay_distinct_and_nonempty_example :
  tags_ok
    (fold_left (PropertyForm.tag_step MoreExamples.trim)
       [PropertyForm.AddClicked; PropertyForm.Typed "pool ";
        PropertyForm.AddClicked; PropertyForm.Typed "   ";
        PropertyForm.AddClicked; PropertyForm.RemoveClicked "beach"]
       MoreExamples.tags).
Proof.
  apply tags_stay_distinct_and_nonempty. cbn. split.
  - repeat (apply List.NoDup_cons_iff; split; [cbn; intuition discriminate|]).
    constructor.
  - intros t [<-|[<-|[]]]; reflexivity.
Defined.

(** X14. Removing a tag that was just added gives back the tags there were
    before: when the trimmed input is not empty and not among the tags,
    [addTag] appends it and clears the input, and [removeTag] of it leaves
    the former tags, in their order. *)
Theorem remove_undoes_add (trim : string -> string) (s : PropertyForm.TagState) :
  let tag := trim (PropertyForm.tagInput s) in
  let before :=
    match PropertyForm.watchedTags s with Some l => l | None => [] end in
  truthy tag = true ->
  ~ In tag before ->
  PropertyForm.addTag trim s = PropertyForm.mkTags (Some (before ++ [tag])) ""
  /\ PropertyForm.removeTag tag (PropertyForm.addTag trim s)
     = PropertyForm.mkTags (Some before) "".
Proof.
  intros tag before Ht Hfresh.
  assert (Hadd : PropertyForm.addTag trim s
                 = PropertyForm.mkTags (Some (before ++ [tag])) "").
  { unfold PropertyForm.addTag. fold tag. rewrite Ht. cbn.
    subst before. destruct (PropertyForm.watchedTags s) as [l|]; cbn; [|reflexivity].
    destruct (existsb (String.eqb tag) l) eqn:E; [|reflexivity].
    apply existsb_eqb_In in E. contradiction. }
  split; [exact Hadd|]. rewrite Hadd.
  unfold PropertyForm.removeTag. cbn. do 2 f_equal.
  rewrite List.filter_app. cbn. rewrite String.eqb_refl. cbn. rewrite app_nil_r.
  apply filter_all. intros t Hin.
  destruct (String.eqb t tag) eqn:E; [|reflexivity].
  apply String.eqb_eq in E. subst. contradiction.
Qed.

Lemma remove_undoes_add_example :
  PropertyForm.addTag MoreExamples.trim MoreExamples.tags
  = PropertyForm.mkTags (Some ["pool"; "beach"; "sauna"]%string) ""
  /\ PropertyForm.removeTag "sauna"
       (PropertyForm.addTag MoreExamples.trim MoreExamples.tags)
     = PropertyForm.mkTags (Some ["pool"; "beach"]%string) "".
Proof.
  apply (remove_undoes_add MoreExamples.trim MoreExamples.tags).
  - reflexivity.
  - cbn. intuition discriminate.
Defined.

Lemma image_step_valid (s : ImageField.State) (ev : ImageField.Event) :
  (forall f, ImageField.selectedFile s = Some f -> valid_image f) ->
  forall f, ImageField.selectedFile (ImageField.step s ev) = Some f -> valid_image f.
Proof.
  intros Hs f. destruct ev as [[file|]|result|]; cbn; auto; try discriminate.
  unfold ImageField.handleImageUpload.
  destruct (String.prefix "image/" (file_type file)) eqn:Ep; cbn; auto.
  change (5 * 1024 * 1024) with 5242880.
  destruct (5242880 <? file_size file) eqn:Es; cbn; auto.
  intros [= <-]. split; [exact Ep | now apply Z.ltb_ge].
Qed.

Lemma picked_file_valid (events : list ImageField.Event) (f : File) :
  ImageField.selectedFile (ImageField.run events) = Some f -> valid_image f.
Proof.
  unfold ImageField.run.
  assert (Hgen : forall s,
    (forall f, ImageField.selectedFile s = Some f -> valid_image f) ->
    forall f, ImageField.selectedFile (fold_left ImageField.step events s) = Some f ->
              valid_image f).
  { induction events as [|ev events IH]; intros s Hs; [exact Hs|].
    cbn. apply IH. now apply image_step_valid. }
  apply Hgen. cbn. discriminate.
Qed.

Lemma onSubmit_uploads (id : option string) (selectedFile : option File)
    (upload : File -> ApiResult UploadResponse)
    (pdata : PropertyForm.PropertyFormData) (udata : UpsellForm.UpsellFormData) :
  property_uploads (PropertyForm.onSubmit id selectedFile upload pdata)
  = match selectedFile with Some f => [f] | None => [] end
  /\ upsell_uploads (UpsellForm.onSubmit id selectedFile upload udata)
     = match selectedFile with Some f => [f] | None => [] end.
Proof.
  unfold PropertyForm.onSubmit, UpsellForm.onSubmit.
  destruct selectedFile as [f|]; [destruct (upload f)|];
    destruct (isEditing id); split; reflexivity.
Qed.

(** X15. Whatever files are chosen, read and removed in the image picker of
    a form before it is submitted, a submission uploads the picked file
    once, or nothing, and a file it uploads is an image (its type starts
    with [image/]) of at most 5 MiB: a file that fails the check of the
    picker never replaces the picked one. *)
Theorem only_checked_images_are_uploaded (events : list ImageField.Event)
    (id : option string) (upload : File -> ApiResult UploadResponse)
    (pdata : PropertyForm.PropertyFormData) (udata : UpsellForm.UpsellFormData) :
  let picked := ImageField.selectedFile (ImageField.run events) in
  property_uploads (PropertyForm.onSubmit id picked upload pdata)
  = match picked with Some f => [f] | None => [] end
  /\ upsell_uploads (UpsellForm.onSubmit id picked upload udata)
     = match picked with Some f => [f] | None => [] end
  /\ List.Forall valid_image
       (property_uploads (PropertyForm.onSubmit id picked upload pdata))
  /\ List.Forall valid_image
       (upsell_uploads (UpsellForm.onSubmit id picked upload udata)).
Proof.
  intros picked.
  destruct (onSubmit_uploads id picked upload pdata udata) as [Hp Hu].
  split; [exact Hp|]. split; [exact Hu|]. rewrite Hp, Hu.
  assert (Hv : List.Forall valid_image
                 match picked with Some f => [f] | None => [] end).
  { destruct picked as [f|] eqn:E; constructor; [|constructor].
    now apply (picked_file_valid events). }
  split; exact Hv.
Qed.

(** A file that is no image and one that is too big leave the picked photo
    in place. *)
Example picker_rejects :
  ImageField.selectedFile
    (ImageField.run
       [ImageField.FileChosen (Some MoreExamples.photo);
        ImageField.FileChosen (Some (mkFile "notes.pdf" "application/pdf" 1000));
        ImageField.FileChosen (Some (mkFile "huge.png" "image/png" 5242881));
        ImageField.FileChosen None])
  = Some MoreExamples.photo.
Proof. reflexivity. Qed.

(** X16. After the remove button of the image, a submission of either form
    uploads nothing and sends the one create or update request with the
    empty string as image URL, the other fields as they are in the form. *)
Theorem removed_image_is_submitted_empty (id : option string)
    (upload : File -> ApiResult UploadResponse) (s : ImageField.State)
    (pdata : PropertyForm.PropertyFormData) (udata : UpsellForm.UpsellFormData) :
  let p := PropertyForm.removeImage s pdata in
  let u := UpsellForm.removeImage s udata in
  PropertyForm.onSubmit id (ImageField.selectedFile (fst p)) upload (snd p)
  = [property_request id (PropertyForm.submitData pdata (Some ""%string))]
  /\ UpsellForm.onSubmit id (ImageField.selectedFile (fst u)) upload (snd u)
     = [upsell_request id (UpsellForm.submitData udata (Some ""%string))]
  /\ ImageField.imagePreview (fst p) = None
  /\ ImageField.imagePreview (fst u) = None.
Proof.
  cbn zeta. unfold PropertyForm.removeImage, UpsellForm.removeImage. cbn [fst snd].
  unfold PropertyForm.onSubmit, UpsellForm.onSubmit, property_request, upsell_request.
  cbn. destruct (isEditing id); repeat split.
Qed.

Lemma or_string_some (v : string) : or_string (Some v) "" = v.
Proof. destruct v; reflexivity. Qed.

(** X17. A property that is loaded into the form and saved without a
    change and without a new image goes back as it came: one update (or
    create) request, no upload, whose payload has the name, language,
    currency, payment processor and payout schedule of the property, its
    description, Instagram URL, tags and Wise details when it has them, and
    its image URL when that is not empty; an absent description or
    Instagram URL goes back as the empty string, absent tags as no tags, and
    an absent or empty image URL as no image URL. *)
Theorem property_loaded_then_saved (id : option string)
    (upload : File -> ApiResult UploadResponse)
    (property : PropertyForm.PropertyEntity) :
  let data := fst (PropertyForm.populate property PropertyForm.defaultValues None) in
  PropertyForm.onSubmit id None upload data = [property_request id data]
  /\ PropertyForm.name data = PropertyForm.property_name property
  /\ PropertyForm.language data = PropertyForm.property_language property
  /\ PropertyForm.currency data = PropertyForm.property_currency property
  /\ PropertyForm.payment_processor data
     = PropertyForm.property_payment_processor property
  /\ PropertyForm.payout_schedule data
     = PropertyForm.property_payout_schedule property
  /\ PropertyForm.description data
     = match PropertyForm.property_description property with
       | Some d => d
       | None => ""%string
       end
  /\ PropertyForm.instagram_url data
     = match PropertyForm.property_instagram_url property with
       | Some u => u
       | None => ""%string
       end
  /\ PropertyForm.tags data
     = match PropertyForm.property_tags property with
       | Some l => l
       | None => []
       end
  /\ (forall w, PropertyForm.property_wise_account_details property = Some w ->
        PropertyForm.wise_account_details data = Some w)
  /\ PropertyForm.hero_image_url data
     = match PropertyForm.property_hero_image_url property with
       | Some u => if truthy u then Some u else None
       | None => None
       end.
Proof.
  cbn zeta.
  assert (Hsub : forall d,
    PropertyForm.onSubmit id None upload d = [property_request id d]).
  { intros d. unfold PropertyForm.onSubmit, property_request. cbn.
    now rewrite PropertyForm_submitData_same. }
  split; [apply Hsub|].
  destruct property as [n d i h l c t pp ps w]. unfold PropertyForm.populate. cbn.
  destruct h as [u|]; [destruct (truthy u)|]; cbn;
    (repeat split;
     [destruct d as [x|]; [apply or_string_some | reflexivity]
     |destruct i as [x|]; [apply or_string_some | reflexivity]
     |intros w' [= ->]; reflexivity]).
Qed.

(** X18. An upsell that is loaded into the form and saved without a change
    and without a new image goes back with its property, primary vendor,
    title, price, category, active flag and sort order, and with its
    description and image URL, the empty string standing for an absent one;
    a secondary vendor id of 0 goes back as no secondary vendor. *)
Theorem upsell_loaded_then_saved (id : option string)
    (upload : File -> ApiResult UploadResponse)
    (upsell : UpsellForm.UpsellEntity) :
  let data := fst (UpsellForm.populate upsell UpsellForm.defaultValues None) in
  UpsellForm.onSubmit id None upload data = [upsell_request id data]
  /\ UpsellForm.property_id data = UpsellForm.upsell_property_id upsell
  /\ UpsellForm.primary_vendor_id data = UpsellForm.upsell_primary_vendor_id upsell
  /\ UpsellForm.title data = UpsellForm.upsell_title upsell
  /\ UpsellForm.price data = UpsellForm.upsell_price upsell
  /\ UpsellForm.category data = UpsellForm.upsell_category upsell
  /\ UpsellForm.is_active data = UpsellForm.upsell_is_active upsell
  /\ UpsellForm.sort_order data = UpsellForm.upsell_sort_order upsell
  /\ UpsellForm.description data
     = match UpsellForm.upsell_description upsell with
       | Some d => d
       | None => ""%string
       end
  /\ UpsellForm.image_url data
     = Some match UpsellForm.upsell_image_url upsell with
            | Some u => u
            | None => ""%string
            end
  /\ UpsellForm.secondary_vendor_id data
     = match UpsellForm.upsell_secondary_vendor_id upsell with
       | Some 0 => None
       | other => other
       end.
Proof.
  cbn zeta. split.
  - unfold UpsellForm.onSubmit, upsell_request. cbn [app].
    now rewrite UpsellForm_submitData_same.
  - destruct upsell as [p v s t d pr c i r a o]. unfold UpsellForm.populate. cbn.
    repeat split.
    + destruct d as [x|]; [apply or_string_some | reflexivity].
    + f_equal. destruct i as [x|]; [apply or_string_some | reflexivity].
    + destruct s as [[|z|z]|]; reflexivity.
Qed.

(* ===================================================================== *)
(** * Session: token and storage *)
(* ===================================================================== *)

(** X19. The token in memory and the token in the storage agree on mount,
    and [initAuth], [login] and [logout] keep them in agreement, however
    the backend answers. *)
Theorem token_stays_synced (w : AuthContext.World)
    (me : ApiResult AuthContext.MeResponse)
    (email password : string) (answer : ApiResult AuthContext.LoginResponse) :
  token_synced w ->
  token_synced (world_after (AuthContext.initAuth me w))
  /\ token_synced (world_after (AuthContext.login email password answer w))
  /\ token_synced (AuthContext.logout w)
  /\ forall storage, token_synced (AuthContext.mount storage).
Proof.
  unfold token_synced. intros Hw. split; [|split; [|split]].
  - unfold AuthContext.initAuth.
    destruct (AuthContext.token_truthy _); [destruct me|]; cbn; auto.
    symmetry. apply lookup_delete_eq.
  - destruct answer; cbn; [|exact Hw]. symmetry. apply lookup_insert_eq.
  - cbn. symmetry. apply lookup_delete_eq.
  - reflexivity.
Qed.

Lemma token_stays_synced_example :
  token_synced
    (world_after
       (AuthContext.login "ana@example.com" "pw"
          (Resolved (AuthContext.mkLogin None "t0k3n"))
          (AuthContext.mount MoreExamples.storage))).
Proof.
  apply (token_stays_synced (AuthContext.mount MoreExamples.storage)
           (Rejected None) "ana@example.com" "pw"
           (Resolved (AuthContext.mkLogin None "t0k3n"))).
  reflexivity.
Defined.

(** X20. A failed login changes neither the state nor the storage; it asks
    [/login] once and throws an error whose message is never empty: the
    message of the backend when there is a non-empty one, "Login failed"
    otherwise. *)
Theorem failed_login_changes_nothing (email password : string)
    (message : option string) (w : AuthContext.World) :
  exists thrown,
    AuthContext.login email password (Rejected message) w
    = AuthContext.Thrown w [AuthContext.api_post_login email password] thrown
    /\ truthy thrown = true
    /\ thrown = or_string message "Login failed".
Proof.
  cbn. eexists. split; [reflexivity|].
  destruct message as [[|c m]|]; cbn; auto.
Qed.

(** X21. [initAuth] never throws and always ends the loading; it asks [/me]
    exactly when there is a non-empty token in memory, and without one it
    leaves user, token and storage as they are. *)
Theorem init_auth_always_ends_loading (me : ApiResult AuthContext.MeResponse)
    (w : AuthContext.World) :
  exists w' sent,
    AuthContext.initAuth me w = AuthContext.Returned w' sent
    /\ AuthContext.isLoading (AuthContext.state w') = false
    /\ sent = (if AuthContext.token_truthy (AuthContext.token (AuthContext.state w))
               then [AuthContext.api_get_me] else [])
    /\ (AuthContext.token_truthy (AuthContext.token (AuthContext.state w)) = false ->
        AuthContext.user (AuthContext.state w') = AuthContext.user (AuthContext.state w)
        /\ AuthContext.token (AuthContext.state w')
           = AuthContext.token (AuthContext.state w)
        /\ AuthContext.localStorage w' = AuthContext.localStorage w).
Proof.
  unfold AuthContext.initAuth.
  destruct (AuthContext.token_truthy _); [destruct me|];
    do 2 eexists; (split; [reflexivity|]); cbn; repeat split; discriminate.
Qed.

(** X22. Logging in and then out gives back the storage there was before
    the login, when it held no token, and leaves neither user nor token in
    memory. *)
Theorem logout_undoes_login (email password : string)
    (response : AuthContext.LoginResponse) (w : AuthContext.World) :
  AuthContext.localStorage w !! "token" = None ->
  let logged_in :=
    world_after (AuthContext.login email password (Resolved response) w) in
  AuthContext.localStorage logged_in !! "token"
  = Some (AuthContext.access_token response)
  /\ AuthContext.localStorage (AuthContext.logout logged_in)
     = AuthContext.localStorage w
  /\ AuthContext.user (AuthContext.state (AuthContext.logout logged_in)) = None
  /\ AuthContext.token (AuthContext.state (AuthContext.logout logged_in)) = None.
Proof.
  intros Hnone. cbn. split; [apply lookup_insert_eq|].
  split; [now apply delete_insert_id|]. split; reflexivity.
Qed.

Lemma logout_undoes_login_example :
  AuthContext.localStorage
    (AuthContext.logout
       (world_after
          (AuthContext.login "ana@example.com" "pw"
             (Resolved (AuthContext.mkLogin None "t0k3n"))
             (AuthContext.mount MoreExamples.storage))))
  = MoreExamples.storage.
Proof.
  apply (logout_undoes_login "ana@example.com" "pw"
           (AuthContext.mkLogin None "t0k3n")
           (AuthContext.mount MoreExamples.storage)).
  vm_compute. reflexivity.
Defined.

(** X23. When [/me] is rejected in the [initAuth] that follows a successful
    login (the effect runs again as the token changes), the token is
    removed from memory and storage, but the user of the login stays the
    current user. *)
Theorem rejected_me_after_login_keeps_user (email password : string)
    (response : AuthContext.LoginResponse) (e : option string)
    (w : AuthContext.World) :
  truthy (AuthContext.access_token response) = true ->
  let logged_in :=
    world_after (AuthContext.login email password (Resolved response) w) in
  let after := world_after (AuthContext.initAuth (Rejected e) logged_in) in
  AuthContext.user (AuthContext.state after) = AuthContext.login_user response
  /\ AuthContext.token (AuthContext.state after) = None
  /\ AuthContext.localStorage after = delete "token" (AuthContext.localStorage w).
Proof.
  intros Htok. cbn. unfold AuthContext.initAuth. cbn. rewrite Htok. cbn.
  split; [reflexivity|]. split; [reflexivity|]. apply delete_insert_eq.
Qed.

Lemma rejected_me_after_login_keeps_user_example :
  AuthContext.user
    (AuthContext.state
       (world_after
          (AuthContext.initAuth (Rejected None)
             (world_after
                (AuthContext.login "ana@example.com" "pw"
                   (Resolved
                      (AuthContext.mkLogin
                         (Some (AuthContext.mkUser 7 "Ana" "ana@example.com"
                                  AuthContext.owner None true))
                         "t0k3n"))
                   (AuthContext.mount MoreExamples.storage))))))
  = Some (AuthContext.mkUser 7 "Ana" "ana@example.com" AuthContext.owner None true).
Proof.
  apply (rejected_me_after_login_keeps_user "ana@example.com" "pw"
           (AuthContext.mkLogin
              (Some (AuthContext.mkUser 7 "Ana" "ana@example.com"
                       AuthContext.owner None true))
              "t0k3n")
           None (AuthContext.mount MoreExamples.storage)).
  reflexivity.
Defined.
